(** * mft-rest-submit-transfer-go: submitrequest.go

    A shallow embedding of the Go program that submits a managed file
    transfer request over REST and then queries the transfer status, and
    the properties of it stated in the specification.

    Go strings are byte sequences, modelled by [string] (a list of 8-bit
    [ascii]); Go [int] values are modelled by [Z].  The HTTP transport, URL
    parsing and float formatting belong to the Go runtime and are taken as
    an environment ([Env]); the third-party libraries the program calls
    (encoding/base64, net/http headers, gjson, jsongo with encoding/json)
    are modelled for the calls the program makes. *)

From Stdlib Require Import ZArith Ascii List Lia Bool.
From Stdlib Require String.
From stdpp Require Import gmap strings.

Import ListNotations.
Local Open Scope Z_scope.
Set Warnings "-register-all".

(** ** Bytes and strings *)

Module Bytes.

Definition byte_val (c : ascii) : Z := Z.of_N (N_of_ascii c).
Definition byte_of (z : Z) : ascii := ascii_of_N (Z.to_N z).

Fixpoint len (s : string) : Z :=
  match s with
  | EmptyString => 0
  | String _ r => 1 + len r
  end.

Fixpoint str_drop (n : nat) (s : string) : string :=
  match n, s with
  | O, _ => s
  | S k, EmptyString => EmptyString
  | S k, String _ r => str_drop k r
  end.

Fixpoint str_take (n : nat) (s : string) : string :=
  match n, s with
  | O, _ => EmptyString
  | S k, EmptyString => EmptyString
  | S k, String c r => String c (str_take k r)
  end.

Fixpoint zeros (n : nat) : string :=
  match n with
  | O => EmptyString
  | S k => String (byte_of 0) (zeros k)
  end.

Fixpoint nth_byte (n : nat) (s : string) : ascii :=
  match s, n with
  | EmptyString, _ => byte_of 0
  | String c _, O => c
  | String _ r, S k => nth_byte k r
  end.

Fixpoint index_of (c : ascii) (s : string) : option Z :=
  match s with
  | EmptyString => None
  | String d r =>
      if Ascii.eqb c d then Some 0
      else match index_of c r with
           | Some i => Some (1 + i)
           | None => None
           end
  end.

Fixpoint contains (c : ascii) (s : string) : bool :=
  match s with
  | EmptyString => false
  | String d r => Ascii.eqb c d || contains c r
  end.

Definition isPrefix (p s : string) : bool := String.prefix p s.

Fixpoint all_bytes (p : ascii -> bool) (s : string) : bool :=
  match s with
  | EmptyString => true
  | String c r => p c && all_bytes p r
  end.

Definition in_range (lo hi c : ascii) : bool :=
  (byte_val lo <=? byte_val c) && (byte_val c <=? byte_val hi).

Definition LF : string := String (byte_of 10) EmptyString.
Definition dquote : ascii := byte_of 34.
Definition backslash : ascii := byte_of 92.

(** Writes a text with double quotes from one written with single quotes,
    for JSON literals in examples. *)
Fixpoint dq (s : string) : string :=
  match s with
  | EmptyString => EmptyString
  | String c r => String (if Ascii.eqb c "'" then dquote else c) (dq r)
  end.

End Bytes.
Import Bytes.

(** ** encoding/base64, [StdEncoding] *)

Module Base64.

Definition encodeStd : string :=
  "ABCDEFGHIJKLMNOPQRSTUVWXYZabcdefghijklmnopqrstuvwxyz0123456789+/".

Definition padChar : ascii := "="%char.

(** [enc.encode[i]] *)
Definition encode (i : Z) : ascii := nth_byte (Z.to_nat i) encodeStd.

(** [enc.decodeMap[c]], [None] standing for the invalid marker 0xFF *)
Definition decodeMap (c : ascii) : option Z := index_of c encodeStd.

(** [EncodedLen(n)] for a padded encoding: [(n + 2) / 3 * 4] *)
Definition EncodedLen (n : Z) : Z := (n + 2) / 3 * 4.

(** The bytes [Encode] writes for [src]: full three-byte groups first, then
    the remainder of one or two bytes with padding. *)
Fixpoint encoded (src : string) : string :=
  match src with
  | EmptyString => EmptyString
  | String s0 EmptyString =>
      let val := Z.shiftl (byte_val s0) 16 in
      String (encode (Z.land (Z.shiftr val 18) 63))
        (String (encode (Z.land (Z.shiftr val 12) 63))
           (String padChar (String padChar EmptyString)))
  | String s0 (String s1 EmptyString) =>
      let val := Z.lor (Z.shiftl (byte_val s0) 16) (Z.shiftl (byte_val s1) 8) in
      String (encode (Z.land (Z.shiftr val 18) 63))
        (String (encode (Z.land (Z.shiftr val 12) 63))
           (String (encode (Z.land (Z.shiftr val 6) 63))
              (String padChar EmptyString)))
  | String s0 (String s1 (String s2 rest)) =>
      let val := Z.lor (Z.lor (Z.shiftl (byte_val s0) 16)
                              (Z.shiftl (byte_val s1) 8)) (byte_val s2) in
      String (encode (Z.land (Z.shiftr val 18) 63))
        (String (encode (Z.land (Z.shiftr val 12) 63))
           (String (encode (Z.land (Z.shiftr val 6) 63))
              (String (encode (Z.land val 63)) (encoded rest))))
  end.

(** [Encode(dst, src)]: writes [encoded src] over the front of [dst].  The
    program sizes [dst] with [EncodedLen], so the write is in range. *)
Definition Encode (dst src : string) : string :=
  let e := encoded src in
  e +:+ str_drop (String.length e) dst.

(** Decoding of padded standard base64, as the receiving side applies it
    ([DecodeString] on input without line breaks): four characters give
    three bytes; the last group may end in one or two pad characters. *)
Definition quantum (d0 d1 d2 d3 : Z) : Z :=
  Z.lor (Z.lor (Z.lor (Z.shiftl d0 18) (Z.shiftl d1 12)) (Z.shiftl d2 6)) d3.

Definition out0 (val : Z) : ascii := byte_of (Z.land (Z.shiftr val 16) 255).
Definition out1 (val : Z) : ascii := byte_of (Z.land (Z.shiftr val 8) 255).
Definition out2 (val : Z) : ascii := byte_of (Z.land val 255).

Fixpoint decoded (s : string) : option string :=
  match s with
  | EmptyString => Some EmptyString
  | String c0 (String c1 (String c2 (String c3 rest))) =>
      match decodeMap c0, decodeMap c1 with
      | Some d0, Some d1 =>
          if Ascii.eqb c2 padChar then
            if Ascii.eqb c3 padChar then
              match rest with
              | EmptyString =>
                  Some (String (out0 (quantum d0 d1 0 0)) EmptyString)
              | _ => None
              end
            else None
          else
            match decodeMap c2 with
            | Some d2 =>
                if Ascii.eqb c3 padChar then
                  match rest with
                  | EmptyString =>
                      let val := quantum d0 d1 d2 0 in
                      Some (String (out0 val) (String (out1 val) EmptyString))
                  | _ => None
                  end
                else
                  match decodeMap c3, decoded rest with
                  | Some d3, Some r =>
                      let val := quantum d0 d1 d2 d3 in
                      Some (String (out0 val)
                              (String (out1 val) (String (out2 val) r)))
                  | _, _ => None
                  end
            | None => None
            end
      | _, _ => None
      end
  | _ => None
  end.

End Base64.

(** ** net/http: header maps, requests, responses *)

Module Http.

(** RFC 7230 token characters ([validHeaderFieldByte], [isTokenTable]) *)
Definition isToken (c : ascii) : bool :=
  in_range "a" "z" c || in_range "A" "Z" c || in_range "0" "9" c
  || contains c "!#$%&'*+-.^_`|~".

Definition toUpper (c : ascii) : ascii :=
  if in_range "a" "z" c then byte_of (byte_val c - 32) else c.
Definition toLower (c : ascii) : ascii :=
  if in_range "A" "Z" c then byte_of (byte_val c + 32) else c.

(** The second loop of [canonicalMIMEHeaderKey]: upper case at the start
    and after each dash, lower case elsewhere. *)
Fixpoint canonicalize (upper : bool) (a : string) : string :=
  match a with
  | EmptyString => EmptyString
  | String c r =>
      let c' := if upper then toUpper c else toLower c in
      String c' (canonicalize (Ascii.eqb c' "-") r)
  end.

(** [textproto.CanonicalMIMEHeaderKey]: a key with a byte that is not a
    token character is returned unchanged. *)
Definition CanonicalMIMEHeaderKey (s : string) : string :=
  if all_bytes isToken s then canonicalize true s else s.

(** [http.Header] is [map[string][]string]. *)
Abbreviation Header := (gmap string (list string)).

Definition Header_Set (h : Header) (key value : string) : Header :=
  <[CanonicalMIMEHeaderKey key := [value]]> h.

Definition Header_Get (h : Header) (key : string) : string :=
  match h !! CanonicalMIMEHeaderKey key with
  | Some (v :: _) => v
  | _ => EmptyString
  end.

(** Go [error] values: the one [NewRequest] makes itself, and those the
    runtime reports (URL parsing, transport, body read). *)
Inductive error :=
| InvalidMethod (method : string)
| Failure (msg : string).

Inductive result (A : Type) :=
| Ok (a : A)
| Err (e : error).
Arguments Ok {A} a.
Arguments Err {A} e.

Record Request := {
  Method : string;
  URL : string;
  ReqHeader : Header;
  ReqBody : string
}.

(** What [ioutil.ReadAll] on a response body gives. *)
Inductive BodyRead :=
| ReadOk (data : string)
| ReadErr (e : error).

Record Response := {
  Status : string;
  StatusCode : Z;
  RespHeader : Header;
  Body : BodyRead
}.

Inductive DoResult :=
| DoResp (resp : Response)
| DoErr (e : error).

Definition StatusOK : Z := 200.
Definition StatusAccepted : Z := 202.

(** [validMethod]: not empty and only token characters. *)
Definition validMethod (method : string) : bool :=
  (0 <? len method) && all_bytes isToken method.

End Http.
Import Http.

(** ** gjson results *)

Module Gjson.

(** [gjson.Type] *)
Inductive Type_ := Null | False_ | Number | String_ | True_ | JSON.

(** [gjson.Result]; the numeric value of a number is determined by [Raw]. *)
Record Result := {
  Type_of : Type_;
  Raw : string;
  Str : string
}.

Definition noResult : Result :=
  {| Type_of := Null; Raw := EmptyString; Str := EmptyString |}.

End Gjson.
Import Gjson.

(** ** JSON texts (RFC 8259), as gjson reads them

    A parser for valid JSON texts that keeps, for every value, the raw
    text it was read from: gjson works on raw text and hands raw text on. *)

Module Json.

Inductive jvalue :=
| VNull
| VTrue
| VFalse
| VNumber (raw : string)
| VString (raw str : string)
| VArray (raw : string) (elems : list jvalue)
| VObject (raw : string) (members : list (string * jvalue)).

Definition is_ws (c : ascii) : bool :=
  Ascii.eqb c " " || Ascii.eqb c (byte_of 9) || Ascii.eqb c (byte_of 10)
  || Ascii.eqb c (byte_of 13).

Fixpoint skip_ws (s : string) : string :=
  match s with
  | String c r => if is_ws c then skip_ws r else s
  | EmptyString => s
  end.

(** The text of [s] in front of its suffix [rest]. *)
Definition consumed (s rest : string) : string :=
  str_take (String.length s - String.length rest)%nat s.

Definition is_digit (c : ascii) : bool := in_range "0" "9" c.

Fixpoint skip_digits (s : string) : string :=
  match s with
  | String c r => if is_digit c then skip_digits r else s
  | EmptyString => s
  end.

(** At least one digit, then the rest. *)
Definition digits1 (s : string) : option string :=
  match s with
  | String c r => if is_digit c then Some (skip_digits r) else None
  | EmptyString => None
  end.

Definition number_int (s : string) : option string :=
  match s with
  | String c r =>
      if Ascii.eqb c "0" then Some r
      else if is_digit c then Some (skip_digits r)
      else None
  | EmptyString => None
  end.

Definition number_frac (s : string) : option string :=
  match s with
  | String "." r => digits1 r
  | _ => Some s
  end.

Definition number_exp (s : string) : option string :=
  match s with
  | String c r =>
      if Ascii.eqb c "e" || Ascii.eqb c "E" then
        match r with
        | String d r' =>
            if Ascii.eqb d "+" || Ascii.eqb d "-" then digits1 r' else digits1 r
        | EmptyString => None
        end
      else Some s
  | EmptyString => Some s
  end.

(** The rest of the text after a number at the front of [s]. *)
Definition parse_number (s : string) : option string :=
  let s1 := match s with String "-" r => r | _ => s end in
  match number_int s1 with
  | Some s2 =>
      match number_frac s2 with
      | Some s3 => number_exp s3
      | None => None
      end
  | None => None
  end.

Definition hex_val (c : ascii) : option Z :=
  if in_range "0" "9" c then Some (byte_val c - 48)
  else if in_range "a" "f" c then Some (byte_val c - 87)
  else if in_range "A" "F" c then Some (byte_val c - 55)
  else None.

Definition hex4 (h1 h2 h3 h4 : ascii) : option Z :=
  match hex_val h1, hex_val h2, hex_val h3, hex_val h4 with
  | Some a, Some b, Some c, Some d =>
      Some (Z.lor (Z.lor (Z.lor (Z.shiftl a 12) (Z.shiftl b 8)) (Z.shiftl c 4)) d)
  | _, _, _, _ => None
  end.

(** [utf8.EncodeRune] for a code point of the basic plane. *)
Definition utf8_encode (r : Z) (tail : string) : string :=
  if r <=? 127 then String (byte_of r) tail
  else if r <=? 2047 then
    String (byte_of (Z.lor 192 (Z.shiftr r 6)))
      (String (byte_of (Z.lor 128 (Z.land r 63))) tail)
  else
    String (byte_of (Z.lor 224 (Z.shiftr r 12)))
      (String (byte_of (Z.lor 128 (Z.land (Z.shiftr r 6) 63)))
         (String (byte_of (Z.lor 128 (Z.land r 63))) tail)).

Definition is_surrogate (r : Z) : bool := (55296 <=? r) && (r <=? 57343).

(** The characters of a string after its opening quote: the unescaped
    string and the text after the closing quote.  Escapes of surrogate
    code points are not covered. *)
Fixpoint parse_string (s : string) : option (string * string) :=
  match s with
  | EmptyString => None
  | String c r =>
      if Ascii.eqb c dquote then Some (EmptyString, r)
      else if Ascii.eqb c backslash then
        match r with
        | String "u" (String h1 (String h2 (String h3 (String h4 r')))) =>
            match hex4 h1 h2 h3 h4, parse_string r' with
            | Some cp, Some (str, rest) =>
                if is_surrogate cp then None
                else Some (utf8_encode cp str, rest)
            | _, _ => None
            end
        | String e r' =>
            let unescaped :=
              if Ascii.eqb e dquote then Some dquote
              else if Ascii.eqb e backslash then Some backslash
              else if Ascii.eqb e "/" then Some "/"%char
              else if Ascii.eqb e "b" then Some (byte_of 8)
              else if Ascii.eqb e "f" then Some (byte_of 12)
              else if Ascii.eqb e "n" then Some (byte_of 10)
              else if Ascii.eqb e "r" then Some (byte_of 13)
              else if Ascii.eqb e "t" then Some (byte_of 9)
              else None in
            match unescaped, parse_string r' with
            | Some u, Some (str, rest) => Some (String u str, rest)
            | _, _ => None
            end
        | EmptyString => None
        end
      else if byte_val c <? 32 then None
      else
        match parse_string r with
        | Some (str, rest) => Some (String c str, rest)
        | None => None
        end
  end.

Fixpoint parse_value (fuel : nat) (s : string) : option (jvalue * string) :=
  match fuel with
  | O => None
  | S n =>
      let s' := skip_ws s in
      match s' with
      | EmptyString => None
      | String c r =>
          if Ascii.eqb c "{" then
            match skip_ws r with
            | String "}" rest => Some (VObject (consumed s' rest) [], rest)
            | _ =>
                match parse_members n r with
                | Some (ms, rest) => Some (VObject (consumed s' rest) ms, rest)
                | None => None
                end
            end
          else if Ascii.eqb c "[" then
            match skip_ws r with
            | String "]" rest => Some (VArray (consumed s' rest) [], rest)
            | _ =>
                match parse_elements n r with
                | Some (vs, rest) => Some (VArray (consumed s' rest) vs, rest)
                | None => None
                end
            end
          else if Ascii.eqb c dquote then
            match parse_string r with
            | Some (str, rest) => Some (VString (consumed s' rest) str, rest)
            | None => None
            end
          else if isPrefix "true" s' then Some (VTrue, str_drop 4 s')
          else if isPrefix "false" s' then Some (VFalse, str_drop 5 s')
          else if isPrefix "null" s' then Some (VNull, str_drop 4 s')
          else
            match parse_number s' with
            | Some rest => Some (VNumber (consumed s' rest), rest)
            | None => None
            end
      end
  end
with parse_elements (fuel : nat) (s : string) : option (list jvalue * string) :=
  match fuel with
  | O => None
  | S n =>
      match parse_value n s with
      | Some (v, r) =>
          match skip_ws r with
          | String "," r' =>
              match parse_elements n r' with
              | Some (vs, rest) => Some (v :: vs, rest)
              | None => None
              end
          | String "]" rest => Some ([v], rest)
          | _ => None
          end
      | None => None
      end
  end
with parse_members (fuel : nat) (s : string)
  : option (list (string * jvalue) * string) :=
  match fuel with
  | O => None
  | S n =>
      match skip_ws s with
      | String c r =>
          if Ascii.eqb c dquote then
            match parse_string r with
            | Some (key, r1) =>
                match skip_ws r1 with
                | String ":" r2 =>
                    match parse_value n r2 with
                    | Some (v, r3) =>
                        match skip_ws r3 with
                        | String "," r4 =>
                            match parse_members n r4 with
                            | Some (ms, rest) => Some ((key, v) :: ms, rest)
                            | None => None
                            end
                        | String "}" rest => Some ([(key, v)], rest)
                        | _ => None
                        end
                    | None => None
                    end
                | _ => None
                end
            | None => None
            end
          else None
      | EmptyString => None
      end
  end.

(** A whole text: one value, white space around it. *)
Definition parse (s : string) : option jvalue :=
  match parse_value (2 * String.length s + 2) s with
  | Some (v, rest) =>
      match skip_ws rest with
      | EmptyString => Some v
      | _ => None
      end
  | None => None
  end.

Fixpoint find_member (key : string) (ms : list (string * jvalue)) : option jvalue :=
  match ms with
  | [] => None
  | (k, v) :: r => if String.eqb k key then Some v else find_member key r
  end.

End Json.
Import Json.

(** ** The environment of a run *)

Record Env := {
  (** [net/url.Parse]: [None] when the URL parses *)
  url_Parse : string -> option error;
  (** the answer to the n-th call (from 0) of [http.Client.Do] *)
  client_Do : nat -> Request -> DoResult;
  (** [Result.String] of a number read from the raw text: the raw text or
      [strconv.FormatFloat] of its value, by the release of gjson *)
  number_String : string -> string;
  (** [gjson.Get] outside the JSON texts and paths modelled below *)
  gjson_other : string -> string -> Result;
  (** [Result.Array] of a [JSON] result whose raw text is not a JSON array *)
  gjson_other_array : string -> list Result
}.

(** ** strings.EqualFold, for an ASCII second argument

    Bytes below 0x80 match up to the case of letters.  The only runes
    outside ASCII that fold to an ASCII letter are U+017F (long s, bytes
    C5 BF) and U+212A (Kelvin sign, bytes E2 84 AA). *)

Module Strings.

Fixpoint EqualFold (s t : string) : bool :=
  match s, t with
  | EmptyString, EmptyString => true
  | String sr s1, String tr t1 =>
      if byte_val sr <? 128 then
        Ascii.eqb (toLower sr) (toLower tr) && EqualFold s1 t1
      else
        match s1 with
        | String b1 s2 =>
            if (byte_val sr =? 197) && (byte_val b1 =? 191) then
              Ascii.eqb (toLower tr) "s" && EqualFold s2 t1
            else
              match s2 with
              | String b2 s3 =>
                  (byte_val sr =? 226) && (byte_val b1 =? 132)
                  && (byte_val b2 =? 170)
                  && Ascii.eqb (toLower tr) "k" && EqualFold s3 t1
              | EmptyString => false
              end
        | EmptyString => false
        end
  | _, _ => false
  end.

End Strings.
Import Strings.

(** ** jsongo objects and encoding/json

    [jsongo.O] is a Go map and [*jsongo.A] a pointer to a slice: [Put]
    updates the object in place and every holder of the reference sees
    the update.  Objects live in a store and values refer to them. *)

Module Jsongo.

Inductive val :=
| Str_ (s : string)
| Ref (l : nat).

Inductive cell :=
| Obj (m : gmap string val)
| Arr (a : list val).

Abbreviation store := (gmap nat cell).

Definition St (A : Type) : Type := store -> A * store.

Definition alloc (c : cell) : St val :=
  fun σ => let l := size σ in (Ref l, <[l := c]> σ).

(** [jsongo.Object()] *)
Definition Object : St val := alloc (Obj ∅).

(** [jsongo.Array()] *)
Definition Array : St val := alloc (Arr []).

(** [this.Put(key, value)] on an object: [this[key] = value; return this] *)
Definition Put (this : val) (key : string) (value : val) : St val :=
  fun σ =>
    match this with
    | Ref l =>
        match σ !! l with
        | Some (Obj m) => (this, <[l := Obj (<[key := value]> m)]> σ)
        | _ => (this, σ)
        end
    | _ => (this, σ)
    end.

(** [this.Put(value)] on an array: the value is appended to the slice
    behind the pointer, and the pointer returned *)
Definition APut (this : val) (value : val) : St val :=
  fun σ =>
    match this with
    | Ref l =>
        match σ !! l with
        | Some (Arr a) => (this, <[l := Arr (a ++ [value])]> σ)
        | _ => (this, σ)
        end
    | _ => (this, σ)
    end.

Definition hex_digit (n : Z) : ascii := nth_byte (Z.to_nat n) "0123456789abcdef".

(** encoding/json writes a string byte by byte, with HTML escaping on:
    quote and backslash with a backslash, line feed, carriage return and tab
    in short form, other control bytes and [<], [>], [&] as \u00XX.  Bytes
    from 0x80 are copied (valid UTF-8 other than U+2028 and U+2029). *)
Fixpoint escape (s : string) : string :=
  match s with
  | EmptyString => EmptyString
  | String c r =>
      let b := byte_val c in
      if Ascii.eqb c dquote || Ascii.eqb c backslash then
        String backslash (String c (escape r))
      else if b =? 10 then String backslash (String "n" (escape r))
      else if b =? 13 then String backslash (String "r" (escape r))
      else if b =? 9 then String backslash (String "t" (escape r))
      else if (b <? 32) || Ascii.eqb c "<" || Ascii.eqb c ">" || Ascii.eqb c "&" then
        String backslash
          (String "u" (String "0" (String "0"
             (String (hex_digit (Z.shiftr b 4))
                (String (hex_digit (Z.land b 15)) (escape r))))))
      else String c (escape r)
  end.

Definition quote (s : string) : string :=
  String dquote (escape s +:+ String dquote EmptyString).

(** Map keys are written in sorted order. *)
Fixpoint insert_sorted (kv : string * val) (l : list (string * val))
  : list (string * val) :=
  match l with
  | [] => [kv]
  | kv' :: r =>
      if String.leb (fst kv) (fst kv') then kv :: l
      else kv' :: insert_sorted kv r
  end.

Definition sort_keys (l : list (string * val)) : list (string * val) :=
  fold_right insert_sorted [] l.

Fixpoint join (sep : string) (l : list string) : string :=
  match l with
  | [] => EmptyString
  | [x] => x
  | x :: r => x +:+ sep +:+ join sep r
  end.

Fixpoint all_some {A} (l : list (option A)) : option (list A) :=
  match l with
  | [] => Some []
  | Some x :: r =>
      match all_some r with
      | Some xs => Some (x :: xs)
      | None => None
      end
  | None :: _ => None
  end.

(** [json.Marshal]; [None] when the nesting exceeds [fuel]. *)
Fixpoint marshal (fuel : nat) (σ : store) (v : val) : option string :=
  match v with
  | Str_ s => Some (quote s)
  | Ref l =>
      match fuel with
      | O => None
      | S n =>
          match σ !! l with
          | Some (Obj m) =>
              match
                all_some
                  (map (fun kv =>
                          match marshal n σ (snd kv) with
                          | Some t => Some (quote (fst kv) +:+ ":" +:+ t)
                          | None => None
                          end)
                       (sort_keys (map_to_list m)))
              with
              | Some ts => Some ("{" +:+ join "," ts +:+ "}")
              | None => None
              end
          | Some (Arr a) =>
              match all_some (map (marshal n σ) a) with
              | Some ts => Some ("[" +:+ join "," ts +:+ "]")
              | None => None
              end
          | None => None
          end
      end
  end.

(** [this.String()]: the compact JSON text of the object.  Nesting deeper
    than the number of objects in the store means a cycle, which
    [json.Marshal] refuses; the text is then empty. *)
Definition String_ (this : val) : St string :=
  fun σ =>
    match marshal (S (size σ)) σ this with
    | Some t => (t, σ)
    | None => (EmptyString, σ)
    end.

Definition ret {A} (a : A) : St A := fun σ => (a, σ).
Definition bind {A B} (m : St A) (k : A -> St B) : St B :=
  fun σ => let (a, σ') := m σ in k a σ'.
Definition run {A} (m : St A) : A := fst (m ∅).

End Jsongo.
(** ** gjson: [Get], [Result.Array], [Result.String] *)

Module GjsonOps.

Definition result_of (v : jvalue) : Result :=
  match v with
  | VNull => {| Type_of := Null; Raw := "null"; Str := EmptyString |}
  | VTrue => {| Type_of := True_; Raw := "true"; Str := EmptyString |}
  | VFalse => {| Type_of := False_; Raw := "false"; Str := EmptyString |}
  | VNumber raw => {| Type_of := Number; Raw := raw; Str := EmptyString |}
  | VString raw str => {| Type_of := String_; Raw := raw; Str := str |}
  | VArray raw _ => {| Type_of := JSON; Raw := raw; Str := EmptyString |}
  | VObject raw _ => {| Type_of := JSON; Raw := raw; Str := EmptyString |}
  end.

(** The components of a path, separated by dots. *)
Fixpoint split_dot (path : string) : list string :=
  match path with
  | EmptyString => [EmptyString]
  | String c r =>
      if Ascii.eqb c "." then EmptyString :: split_dot r
      else
        match split_dot r with
        | h :: t => String c h :: t
        | [] => [String c EmptyString]
        end
  end.

Definition is_alnum (c : ascii) : bool :=
  in_range "a" "z" c || in_range "A" "Z" c || in_range "0" "9" c
  || Ascii.eqb c "_".

(** Paths of plain keys: no wildcard, query, modifier or escape, and no
    index too long for a machine word. *)
Definition plain_key (k : string) : bool :=
  (0 <? len k) && all_bytes is_alnum k
  && (negb (all_bytes is_digit k) || (len k <=? 18)).

Definition plain_path (path : string) : bool :=
  forallb plain_key (split_dot path).

Fixpoint decimal_acc (acc : nat) (k : string) : option nat :=
  match k with
  | EmptyString => Some acc
  | String c r =>
      if is_digit c then
        decimal_acc (10 * acc + Z.to_nat (byte_val c - 48))%nat r
      else None
  end.

(** An array index written in decimal. *)
Definition decimal (k : string) : option nat :=
  match k with
  | EmptyString => None
  | _ => decimal_acc 0 k
  end.

(** The value at a path.  In an object the members are tried in order:
    one whose key is the component is taken when the rest of the path leads
    somewhere in it; in an array the component is an index. *)
Fixpoint lookup (path : list string) (v : jvalue) {struct path} : option jvalue :=
  match path with
  | [] => Some v
  | k :: ks =>
      match v with
      | VObject _ ms =>
          (fix search (ms : list (string * jvalue)) : option jvalue :=
             match ms with
             | [] => None
             | (key, v') :: r =>
                 if String.eqb key k then
                   match lookup ks v' with
                   | Some x => Some x
                   | None => search r
                   end
                 else search r
             end) ms
      | VArray _ vs =>
          match decimal k with
          | Some i =>
              match vs !! i with
              | Some v' => lookup ks v'
              | None => None
              end
          | None => None
          end
      | _ => None
      end
  end.

Section WithEnv.
Variable E : Env.

(** [gjson.Get(json, path)], modelled for a JSON text that is an object or
    an array and a path of plain keys. *)
Definition Get (json path : string) : Result :=
  if plain_path path then
    match parse json with
    | Some (VObject raw ms) =>
        match lookup (split_dot path) (VObject raw ms) with
        | Some v => result_of v
        | None => noResult
        end
    | Some (VArray raw vs) =>
        match lookup (split_dot path) (VArray raw vs) with
        | Some v => result_of v
        | None => noResult
        end
    | _ => gjson_other E json path
    end
  else gjson_other E json path.

(** [t.Array()]: nothing for a null result, the result itself for a value
    that is not JSON, the elements for a JSON array. *)
Definition Result_Array (t : Result) : list Result :=
  match Type_of t with
  | Null => []
  | JSON =>
      match parse (Raw t) with
      | Some (VArray _ vs) => map result_of vs
      | _ => gjson_other_array E (Raw t)
      end
  | _ => [t]
  end.

(** [t.String()] *)
Definition Result_String (t : Result) : string :=
  match Type_of t with
  | Null => EmptyString
  | False_ => "false"
  | Number => number_String E (Raw t)
  | String_ => Str t
  | JSON => Raw t
  | True_ => "true"
  end.

(** [t.Get(path)] *)
Definition Result_Get (t : Result) (path : string) : Result :=
  Get (Raw t) path.

End WithEnv.

End GjsonOps.

(** ** Effects: output, HTTP calls, sleeping, panics *)

Inductive arg :=
| AStr (s : string)
| AErr (e : error).

Inductive event :=
| EvPrintf (format : string) (args : list arg)
| EvDo (req : Request)
| EvClose
| EvSleep (d : Z).

(** The run-time panic of the program: "runtime error: index out of range
    [i] with length n". *)
Inductive runtime_error :=
| IndexOutOfRange (i n : Z).

Inductive outcome (A : Type) :=
| Ret (a : A)
| Panic (msg : runtime_error).
Arguments Ret {A} a.
Arguments Panic {A} msg.

(** A computation extends the trace of events so far and returns or panics. *)
Definition M (A : Type) : Type := list event -> outcome A * list event.

Definition ret {A} (a : A) : M A := fun t => (Ret a, t).

Definition bind {A B} (m : M A) (k : A -> M B) : M B :=
  fun t =>
    match m t with
    | (Ret a, t') => k a t'
    | (Panic msg, t') => (Panic msg, t')
    end.

Notation "'let*' x := m 'in' k" := (bind m (fun x => k))
  (at level 10, x name, k at level 200).
Notation "m ;;; k" := (bind m (fun _ => k))
  (at level 100, k at level 200, right associativity).

Definition emit (e : event) : M unit := fun t => (Ret tt, t ++ [e]).

Definition panic {A} (msg : runtime_error) : M A := fun t => (Panic msg, t).

(** [fmt.Printf(format, args...)] *)
Definition Printf (format : string) (args : list arg) : M unit :=
  emit (EvPrintf format args).

(** [time.Sleep(d)] *)
Definition Sleep (d : Z) : M unit := emit (EvSleep d).

(** [time.Second], in nanoseconds *)
Definition Second : Z := 1000000000.

(** [defer body.Close()]: runs when the function returns or panics. *)
Definition defer_Close {A} (body : M A) : M A :=
  fun t => let (o, t') := body t in (o, t' ++ [EvClose]).

(** [l[i]] on a slice, with Go's bounds check. *)
Definition at_index {A} (l : list A) (i : Z) : M A :=
  if (0 <=? i) && (i <? Z.of_nat (length l)) then
    match l !! Z.to_nat i with
    | Some x => ret x
    | None => panic (IndexOutOfRange i (Z.of_nat (length l)))
    end
  else panic (IndexOutOfRange i (Z.of_nat (length l))).

(** The number of [http.Client.Do] calls in a trace. *)
Fixpoint calls (t : list event) : nat :=
  match t with
  | [] => O
  | EvDo _ :: r => S (calls r)
  | _ :: r => calls r
  end.

Declare Scope store_scope.
Delimit Scope store_scope with store.
Notation "'jvar' x := m ; k" := (Jsongo.bind m (fun x => k))
  (at level 10, x name, k at level 200) : store_scope.
Notation "'jdo' m ; k" := (Jsongo.bind m (fun _ => k))
  (at level 10, k at level 200) : store_scope.

(** ** The program *)

Definition mqRestXferUrl : string :=
  "http://localhost:8080/ibmmq/rest/v2/admin/mft/transfer".
Definition mqWebUserId : string := "mqmftadminusr".
Definition mqWebPassword : string := "mqmftpassw0rd".
Definition sourceAgentName : string := "SRC".
Definition destinationAgentName : string := "DEST".
Definition sourceQMName : string := "SRCQM".
Definition destinationQMName : string := "DESTQM".
Definition sourceItemName : string := "/usr/srcdir".
Definition destinationItemName : string := "/usr/destdir".
Definition sourceItemType : string := "file".
Definition destinationItemType : string := "directory".

(** [buildTransferJsonRequest] *)
Definition buildTransferJsonRequest : string :=
  Jsongo.run (
    (* Source agent attributes *)
    jvar o := Jsongo.Object ;
    jvar sourceAgent := Jsongo.Put o "qmgrName" (Jsongo.Str_ sourceQMName) ;
    jdo Jsongo.Put sourceAgent "name" (Jsongo.Str_ sourceAgentName) ;
    jvar o := Jsongo.Object ;
    jvar xferRequest := Jsongo.Put o "sourceAgent" sourceAgent ;
    (* Destination agent attributes *)
    jvar o := Jsongo.Object ;
    jvar destAgent := Jsongo.Put o "qmgrName" (Jsongo.Str_ destinationQMName) ;
    jdo Jsongo.Put destAgent "name" (Jsongo.Str_ destinationAgentName) ;
    jvar xferRequest := Jsongo.Put xferRequest "destinationAgent" destAgent ;
    (* Source item attributes *)
    jvar o := Jsongo.Object ;
    jvar sourceItem := Jsongo.Put o "name" (Jsongo.Str_ sourceItemName) ;
    jdo Jsongo.Put sourceItem "type" (Jsongo.Str_ sourceItemType) ;
    (* Destination item attributes *)
    jvar o := Jsongo.Object ;
    jvar destItem := Jsongo.Put o "name" (Jsongo.Str_ destinationItemName) ;
    jdo Jsongo.Put destItem "type" (Jsongo.Str_ destinationItemType) ;
    (* Set source and destination to item group *)
    jvar o := Jsongo.Object ;
    jvar item := Jsongo.Put o "source" sourceItem ;
    jdo Jsongo.Put item "destination" destItem ;
    (* Set item in to the transfer item array *)
    jvar a := Jsongo.Array ;
    jvar itemsArray := Jsongo.APut a item ;
    jvar o := Jsongo.Object ;
    jvar xfertSetItems := Jsongo.Put o "item" itemsArray ;
    (* Set transfer items array to transfer set *)
    jdo Jsongo.Put xferRequest "transferSet" xfertSetItems ;
    Jsongo.String_ xferRequest)%store.

Section Program.
Variable E : Env.

Import GjsonOps.

(** [http.NewRequest(method, url, body)]: an empty method means GET; it
    fails on an invalid method or a URL that does not parse.  The new
    request has an empty header map. *)
Definition NewRequest (method url body : string) : result Request :=
  let method := if String.eqb method EmptyString then "GET" else method in
  if negb (validMethod method) then Err (InvalidMethod method)
  else
    match url_Parse E url with
    | Some err => Err err
    | None =>
        Ok {| Method := method; URL := url; ReqHeader := ∅; ReqBody := body |}
    end.

(** [buildHTTPRequestHeader]: the pair [(httpRequest, errReq)] of the
    source is [Ok httpRequest] when [errReq] is nil and [Err errReq]
    otherwise (the request is then nil). *)
Definition buildHTTPRequestHeader
  (httpVerb url body userId password : string) : result Request :=
  let requestBody := if 0 <? len body then body else EmptyString in
  match NewRequest httpVerb url requestBody with
  | Ok httpRequest =>
      (* Set the required HTTP headers *)
      let uidPwd := userId +:+ ":" +:+ password in
      let uidPwdArr := uidPwd in
      let encodedCreds := zeros (Z.to_nat (Base64.EncodedLen (len uidPwd))) in
      let encodedCreds := Base64.Encode encodedCreds uidPwdArr in
      let h := ReqHeader httpRequest in
      let h := Header_Set h "Authorization" ("Basic " +:+ encodedCreds) in
      (* csrf-token must be set but can be blank *)
      let h := Header_Set h "ibm-mq-rest-csrf-token" EmptyString in
      let h := Header_Set h "Content-Type" "application/json" in
      Ok {| Method := Method httpRequest; URL := URL httpRequest;
            ReqHeader := h; ReqBody := ReqBody httpRequest |}
  | Err errReq => Err errReq
  end.

(** [client.Do(req)]: the environment answers the call by its number. *)
Definition Do (req : Request) : M DoResult :=
  fun t => (Ret (client_Do E (calls t) req), t ++ [EvDo req]).

(** [postTransferRequest] *)
Definition postTransferRequest (xferRequestJson : string) : M (Z * string) :=
  let xferReqURL := mqRestXferUrl in
  match buildHTTPRequestHeader "POST" xferReqURL xferRequestJson
          mqWebUserId mqWebPassword with
  | Err errPOST =>
      Printf ("Error occured creating HTTP request. The error is %v" +:+ LF)
        [AErr errPOST] ;;;
      ret (-1, EmptyString)
  | Ok httpPOST =>
      let* respOrErr := Do httpPOST in
      match respOrErr with
      | DoErr errPost =>
          Printf ("An error occured while publishing transfer logs to %s. The error is: %v" +:+ LF)
            [AStr xferReqURL; AErr errPost] ;;;
          ret (-1, EmptyString)
      | DoResp respPost =>
          defer_Close (
            Printf ("Submitted transfer request to: %v" +:+ LF) [AStr xferReqURL] ;;;
            (* Read the response body *)
            let transferStatusUrl := EmptyString in
            let retCode := -1 in
            match Body respPost with
            | ReadErr err =>
                Printf ("An error occurred while reading response from server %s. The error is: %v" +:+ LF)
                  [AStr xferReqURL; AErr err] ;;;
                ret (retCode, transferStatusUrl)
            | ReadOk _ =>
                Printf ("HTTP response received. Status: %v" +:+ LF)
                  [AStr (Status respPost)] ;;;
                let retCode := StatusCode respPost in
                if StatusCode respPost =? StatusAccepted then
                  let transferStatusUrl := Header_Get (RespHeader respPost) "location" in
                  Printf ("Transfer URL:%v" +:+ LF) [AStr transferStatusUrl] ;;;
                  ret (retCode, transferStatusUrl)
                else ret (retCode, transferStatusUrl)
            end)
      end
  end.

(** The loop of [waitForTransferStatus] over the transfer items, from
    [index] on: [for ...; index < itemCount; index++]. *)
Fixpoint itemsLoop (fuel : nat) (transferItems : list Result)
  (index itemCount : Z) : M unit :=
  match fuel with
  | O => ret tt
  | S n =>
      if index <? itemCount then
        let* item := at_index transferItems index in
        (if negb (EqualFold (Result_String E (Result_Get E item "status.state")) "successful")
         then
           let* item := at_index transferItems index in
           Printf ("%s" +:+ LF)
             [AStr (Result_String E (Result_Get E item "status.description"))]
         else ret tt) ;;;
        itemsLoop n transferItems (index + 1) itemCount
      else ret tt
  end.

(** [waitForTransferStatus] *)
Definition waitForTransferStatus (transferUrl : string) : M Z :=
  (* Build HTTP GET request to query all attributes of transfer. *)
  Printf ("Querying status of transfer" +:+ LF) [] ;;;
  match buildHTTPRequestHeader "GET" (transferUrl +:+ "?attributes=*") EmptyString
          mqWebUserId mqWebPassword with
  | Err errGET =>
      Printf ("Error occured creating HTTP request. The error is %v" +:+ LF)
        [AErr errGET] ;;;
      ret (-1)
  | Ok httpGET =>
      (* Run the request and handle errors. *)
      let* respOrErr := Do httpGET in
      match respOrErr with
      | DoErr errGET =>
          Printf ("An error occured while publishing transfer logs to %s. The error is: %v" +:+ LF)
            [AStr transferUrl; AErr errGET] ;;;
          ret (-1)
      | DoResp respGET =>
          defer_Close (
            (* Verify the status code *)
            (if StatusCode respGET =? StatusOK then
               match Body respGET with
               | ReadOk respBody =>
                   let respJson := Result_Array E (Get E respBody "transfer") in
                   let* first := at_index respJson 0 in
                   let status := Get E (Result_String E first) "status.state" in
                   let* first := at_index respJson 0 in
                   let id := Get E (Result_String E first) "id" in
                   Printf ("Status of transfer with ID %v is %v" +:+ LF)
                     [AStr (Result_String E id); AStr (Result_String E status)] ;;;
                   if negb (EqualFold (Result_String E status) "successful") then
                     (* Display additional details if the status is not successful *)
                     let* first := at_index respJson 0 in
                     let statusDescription :=
                       Get E (Result_String E first) "status.description" in
                     Printf ("%s" +:+ LF +:+ "Following errors occurred:" +:+ LF)
                       [AStr (Result_String E statusDescription)] ;;;
                     let* first := at_index respJson 0 in
                     let transferItems :=
                       Result_Array E (Get E (Result_String E first) "transferSet.item") in
                     if 0 <? Z.of_nat (length transferItems) then
                       let itemCount := Z.of_nat (length transferItems) in
                       itemsLoop (Z.to_nat itemCount) transferItems 0 itemCount
                     else ret tt
                   else ret tt
               | ReadErr errGET =>
                   Printf ("An error occurred while reading response from server %s. The error is: %v" +:+ LF)
                     [AStr transferUrl; AErr errGET]
               end
             else
               Printf ("Response code received: %v" +:+ LF) [AStr (Status respGET)]) ;;;
            ret (StatusCode respGET))
      end
  end.

(** [main] *)
Definition main : M unit :=
  (* Build a transfer request and put to agent's command queue *)
  let transferRequest := buildTransferJsonRequest in
  (* Post transfer request. *)
  let* posted := postTransferRequest transferRequest in
  let retCode := fst posted in
  let transferUrl := snd posted in
  if retCode =? StatusAccepted then
    (* Requested submitted successfully. Now look for status of transfer *)
    let* respCode := waitForTransferStatus transferUrl in
    (* If response was anything other 200, then rerun the request *)
    if negb (respCode =? StatusOK) then
      (* Wait for 5 seconds and resubmit the HTTP GET request again *)
      Sleep (5 * Second) ;;;
      let* respCode := waitForTransferStatus transferUrl in
      ret tt
    else ret tt
  else ret tt.

End Program.
(** ** Vocabulary of the properties *)

(** The reading of a Basic [Authorization] value on the receiving side, as
    net/http's [parseBasicAuth] does it: the text after the prefix is
    base64-decoded and cut at its first colon. *)
Fixpoint cutColon (s : string) : option (string * string) :=
  match s with
  | EmptyString => None
  | String c r =>
      if Ascii.eqb c ":" then Some (EmptyString, r)
      else
        match cutColon r with
        | Some (u, p) => Some (String c u, p)
        | None => None
        end
  end.

Definition decodeBasicAuth (auth : string) : option (string * string) :=
  if isPrefix "Basic " auth then
    match Base64.decoded (str_drop 6 auth) with
    | Some cs => cutColon cs
    | None => None
    end
  else None.

(** The first statement of [waitForTransferStatus] prints a line that no
    other statement of the program prints: it marks an invocation. *)
Definition is_poll (e : event) : bool :=
  match e with
  | EvPrintf format [] => String.eqb format ("Querying status of transfer" +:+ LF)
  | _ => false
  end.

Fixpoint polls (t : list event) : nat :=
  match t with
  | [] => O
  | e :: r => if is_poll e then S (polls r) else polls r
  end.

Fixpoint sleeps (t : list event) : list Z :=
  match t with
  | [] => []
  | EvSleep d :: r => d :: sleeps r
  | _ :: r => sleeps r
  end.

(** The lines printed for transfer items: the arguments of the
    [Printf("%s\n", ...)] calls. *)
Definition item_line (e : event) : option string :=
  match e with
  | EvPrintf format [AStr s] =>
      if String.eqb format ("%s" +:+ LF) then Some s else None
  | _ => None
  end.

Fixpoint item_lines (t : list event) : list string :=
  match t with
  | [] => []
  | e :: r =>
      match item_line e with
      | Some s => s :: item_lines r
      | None => item_lines r
      end
  end.

(** A well-formed response carries a three-digit status code. *)
Definition valid_StatusCode (code : Z) : Prop := 0 <= code <= 999.

(** ** Sample environments *)

Definition response (code : Z) (status : string) (h : Header) (b : BodyRead)
  : Response :=
  {| Status := status; StatusCode := code; RespHeader := h; Body := b |}.

Definition accepted : Response :=
  response 202 "202 Accepted" {["Location" := ["http://x/transfer/123"]]}
    (ReadOk EmptyString).

(** An environment that answers the first call with [first] and every
    later call with [later]. *)
Definition scripted (first later : DoResult) : Env :=
  {| url_Parse := fun _ => None;
     client_Do := fun n _ => match n with O => first | _ => later end;
     number_String := fun raw => raw;
     gjson_other := fun _ _ => noResult;
     gjson_other_array := fun _ => [] |}.

(** No server answers: every call fails in the transport. *)
Definition offline : Env :=
  scripted (DoErr (Failure "connection refused"))
           (DoErr (Failure "connection refused")).

(** The [Authorization] value of a built request (empty when there is
    no request). *)
Definition authorization (r : result Request) : string :=
  match r with
  | Ok req => Header_Get (ReqHeader req) "Authorization"
  | Err _ => EmptyString
  end.

(** Events that are neither the mark of a poll nor a sleep. *)
Definition quiet_event (e : event) : bool :=
  negb (is_poll e) && match e with EvSleep _ => false | _ => true end.

(** [m] only adds events to the trace, all of them satisfying [P]. *)
Definition extends {A} (P : event -> bool) (m : M A) : Prop :=
  forall t, exists l, snd (m t) = t ++ l /\ forallb P l = true.

(** The state and the description of a transfer item, as the loop reads
    them, and the lines the loop prints for a list of items. *)
Definition item_state (E : Env) (item : Result) : string :=
  GjsonOps.Result_String E (GjsonOps.Result_Get E item "status.state").

Definition item_description (E : Env) (item : Result) : string :=
  GjsonOps.Result_String E (GjsonOps.Result_Get E item "status.description").

Definition item_failed (E : Env) (item : Result) : bool :=
  negb (EqualFold (item_state E item) "successful").

Definition item_events (E : Env) (items : list Result) : list event :=
  map (fun item => EvPrintf ("%s" +:+ LF) [AStr (item_description E item)])
      (List.filter (item_failed E) items).

Definition pollMark : event :=
  EvPrintf ("Querying status of transfer" +:+ LF) [].

(** The server accepts the transfer and answers every status query with
    [status]. *)
Definition accepting (status : Response) : Env :=
  scripted (DoResp accepted) (DoResp status).

(** A status answer for a transfer that failed in one of two items. *)
Definition oneItemFailed : Response :=
  response 200 "200 OK" ∅
    (ReadOk (dq "{'transfer':[{'id':'414d51','status':{'state':'failed','description':'BFGRP0034I'},'transferSet':{'item':[{'status':{'state':'successful','description':'copied'}},{'status':{'state':'failed','description':'disk full'}}]}}]}")).

(** Status answers without a transfer: an empty array, and no array. *)
Definition emptyTransfer : Response :=
  response 200 "200 OK" ∅ (ReadOk (dq "{'transfer':[]}")).

Definition absentTransfer : Response :=
  response 200 "200 OK" ∅ (ReadOk (dq "{}")).

Definition notFound : Response :=
  response 404 "404 Not Found" ∅ (ReadOk EmptyString).

Definition unreadable (code : Z) (status : string) : Response :=
  response code status {["Location" := ["http://x/transfer/123"]]}
    (ReadErr (Failure "unexpected EOF")).

(** The string at a path of a parsed JSON text. *)
Definition field (v : jvalue) (path : string) : option string :=
  match GjsonOps.lookup (GjsonOps.split_dot path) v with
  | Some (VString _ str) => Some str
  | _ => None
  end.

(** The elements of the array at a path of a parsed JSON text. *)
Definition elements (v : jvalue) (path : string) : option (list jvalue) :=
  match GjsonOps.lookup (GjsonOps.split_dot path) v with
  | Some (VArray _ vs) => Some vs
  | _ => None
  end.


(** ** Further vocabulary: requests sent, bodies closed *)

(** The requests handed to [client.Do] in a trace, in order. *)
Fixpoint requests (t : list event) : list Request :=
  match t with
  | [] => []
  | EvDo req :: r => req :: requests r
  | _ :: r => requests r
  end.

(** The number of [Body.Close()] calls in a trace. *)
Fixpoint closes (t : list event) : nat :=
  match t with
  | [] => O
  | EvClose :: r => S (closes r)
  | _ :: r => closes r
  end.

Definition is_printf (e : event) : bool :=
  match e with
  | EvPrintf _ _ => true
  | _ => false
  end.

(** The characters of a padded base64 text. *)
Definition is_b64 (c : ascii) : bool :=
  contains c Base64.encodeStd || Ascii.eqb c Base64.padChar.

(** The method [NewRequest] gives a request: GET when none is named. *)
Definition method_of (httpVerb : string) : string :=
  if String.eqb httpVerb EmptyString then "GET" else httpVerb.

(** A status answer whose body hands the poller no first transfer. *)
Definition no_transfer (E : Env) (resp : Response) : Prop :=
  StatusCode resp = 200
  /\ exists respBody,
       Body resp = ReadOk respBody
       /\ GjsonOps.Result_Array E (GjsonOps.Get E respBody "transfer") = [].

(** A 202 answer that names no location. *)
Definition acceptedNowhere : Response :=
  response 202 "202 Accepted" ∅ (ReadOk EmptyString).

(** An environment in which the URL of the status query does not parse. *)
Definition badHandle : Env :=
  {| url_Parse := fun url =>
       if String.eqb url mqRestXferUrl then None
       else Some (Failure "invalid URL escape");
     client_Do := fun _ _ => DoResp accepted;
     number_String := fun raw => raw;
     gjson_other := fun _ _ => noResult;
     gjson_other_array := fun _ => [] |}.

(** A request built with the configured credentials. *)
Definition built (E : Env) (req : Request) : Prop :=
  exists httpVerb url body,
    buildHTTPRequestHeader E httpVerb url body mqWebUserId mqWebPassword = Ok req.

(** A 200 answer whose body cannot be read. *)
Definition unreadableOK : Response :=
  response 200 "200 OK" ∅ (ReadErr (Failure "unexpected EOF")).
(** * Properties *)

(** ** Bytes *)

Lemma byte_val_range c : 0 <= byte_val c < 256.
Proof.
  unfold byte_val.
  destruct c as [[] [] [] [] [] [] [] []]; vm_compute; split; congruence.
Qed.

Lemma byte_of_val c : byte_of (byte_val c) = c.
Proof. unfold byte_of, byte_val. rewrite N2Z.id. apply ascii_N_embedding. Qed.

Lemma len_length s : len s = Z.of_nat (String.length s).
Proof. induction s as [|c s IH]; cbn [len String.length]; lia. Qed.

Lemma append_nil s : EmptyString +:+ s = s.
Proof. reflexivity. Qed.

Lemma append_cons c s1 s2 : String c s1 +:+ s2 = String c (s1 +:+ s2).
Proof. reflexivity. Qed.

Lemma len_app s1 s2 : len (s1 +:+ s2) = len s1 + len s2.
Proof.
  induction s1 as [|c s1 IH]; rewrite ?append_nil, ?append_cons; cbn [len]; lia.
Qed.

Lemma append_empty_r s : s +:+ EmptyString = s.
Proof.
  induction s as [|c s IH]; rewrite ?append_nil, ?append_cons; congruence.
Qed.

Lemma drop_zeros n : str_drop n (zeros n) = EmptyString.
Proof. induction n as [|n IH]; simpl; auto. Qed.

Lemma drop_app_length s1 s2 : str_drop (String.length s1) (s1 +:+ s2) = s2.
Proof.
  induction s1 as [|c s1 IH]; rewrite ?append_nil, ?append_cons; cbn [String.length str_drop]; auto.
Qed.

Lemma isPrefix_app p s : isPrefix p (p +:+ s) = true.
Proof.
  unfold isPrefix. induction p as [|c p IH]; rewrite ?append_nil, ?append_cons.
  - destruct s; reflexivity.
  - cbn [String.prefix]. destruct (ascii_dec c c); [exact IH|congruence].
Qed.

(** Induction on strings three bytes at a time, as [Encode] reads them. *)
Lemma string_by_triples (P : string -> Prop) :
  P EmptyString ->
  (forall a, P (String a EmptyString)) ->
  (forall a b, P (String a (String b EmptyString))) ->
  (forall a b c r, P r -> P (String a (String b (String c r)))) ->
  forall s, P s.
Proof.
  intros H0 H1 H2 H3 s.
  assert (H : P s /\ (forall a, P (String a s))
              /\ (forall a b, P (String a (String b s)))).
  { induction s as [|c s (IH0 & IH1 & IH2)].
    - repeat split; auto.
    - repeat split; auto. }
  apply H.
Qed.

(** ** Base64 *)

Section Base64Facts.
Import Base64.

Lemma lor_disjoint_add x y k :
  0 <= k -> x mod 2 ^ k = 0 -> 0 <= y < 2 ^ k -> Z.lor x y = x + y.
Proof.
  intros Hk Hx Hy.
  rewrite <- (Zbitwise.Z.add_lor_land x y).
  replace (Z.land x y) with 0; [lia|].
  symmetry. apply Z.bits_inj'. intros i Hi.
  rewrite Z.land_spec, Z.bits_0.
  destruct (Z.lt_ge_cases i k) as [Hlt|Hge].
  - rewrite <- (Z.mod_pow2_bits_low x k i) by lia.
    rewrite Hx, Z.bits_0. reflexivity.
  - destruct (Z.eq_dec y 0) as [->|Hne]; [rewrite Z.bits_0; apply andb_false_r|].
    rewrite (Z.bits_above_log2 y i); [apply andb_false_r|lia|].
    apply Z.log2_lt_pow2; [lia|].
    apply Z.lt_le_trans with (2 ^ k); [lia|].
    apply Z.pow_le_mono_r; lia.
Qed.

Ltac arith_bits :=
  repeat rewrite Z.shiftl_mul_pow2 by lia;
  repeat rewrite Z.shiftr_div_pow2 by lia;
  change 63 with (Z.ones 6); change 255 with (Z.ones 8);
  repeat rewrite Z.land_ones by lia;
  change (2 ^ 6) with 64; change (2 ^ 8) with 256; change (2 ^ 12) with 4096;
  change (2 ^ 16) with 65536; change (2 ^ 18) with 262144.

Ltac divmod := Z.div_mod_to_equations; lia.

Lemma val3_arith a b c :
  0 <= a < 256 -> 0 <= b < 256 -> 0 <= c < 256 ->
  Z.lor (Z.lor (Z.shiftl a 16) (Z.shiftl b 8)) c = a * 65536 + b * 256 + c.
Proof.
  intros Ha Hb Hc. arith_bits.
  rewrite (lor_disjoint_add (a * 65536) (b * 256) 16);
    [|lia|divmod|change (2 ^ 16) with 65536; lia].
  rewrite (lor_disjoint_add _ c 8);
    [lia|lia|change (2 ^ 8) with 256; divmod|change (2 ^ 8) with 256; lia].
Qed.

Lemma val2_arith a b :
  0 <= a < 256 -> 0 <= b < 256 ->
  Z.lor (Z.shiftl a 16) (Z.shiftl b 8) = a * 65536 + b * 256.
Proof.
  intros Ha Hb. arith_bits.
  rewrite (lor_disjoint_add (a * 65536) (b * 256) 16);
    [lia|lia|divmod|change (2 ^ 16) with 65536; lia].
Qed.

Lemma quantum_arith d0 d1 d2 d3 :
  0 <= d0 < 64 -> 0 <= d1 < 64 -> 0 <= d2 < 64 -> 0 <= d3 < 64 ->
  quantum d0 d1 d2 d3 = d0 * 262144 + d1 * 4096 + d2 * 64 + d3.
Proof.
  intros H0 H1 H2 H3. unfold quantum. arith_bits.
  rewrite (lor_disjoint_add (d0 * 262144) (d1 * 4096) 18);
    [|lia|divmod|change (2 ^ 18) with 262144; lia].
  rewrite (lor_disjoint_add _ (d2 * 64) 12);
    [|lia|change (2 ^ 12) with 4096; divmod|change (2 ^ 12) with 4096; lia].
  rewrite (lor_disjoint_add _ d3 6);
    [lia|lia|change (2 ^ 6) with 64; divmod|change (2 ^ 6) with 64; lia].
Qed.

Lemma sextet_range z : 0 <= Z.land z 63 < 64.
Proof. arith_bits. divmod. Qed.

(** Three bytes come back from their four sextets. *)
Lemma quantum3 a b c :
  0 <= a < 256 -> 0 <= b < 256 -> 0 <= c < 256 ->
  let val := Z.lor (Z.lor (Z.shiftl a 16) (Z.shiftl b 8)) c in
  let q := quantum (Z.land (Z.shiftr val 18) 63) (Z.land (Z.shiftr val 12) 63)
             (Z.land (Z.shiftr val 6) 63) (Z.land val 63) in
  Z.land (Z.shiftr q 16) 255 = a /\ Z.land (Z.shiftr q 8) 255 = b
  /\ Z.land q 255 = c.
Proof.
  intros Ha Hb Hc val q. subst q.
  rewrite quantum_arith by apply sextet_range.
  subst val. rewrite val3_arith by assumption.
  arith_bits. divmod.
Qed.

Lemma quantum2 a b :
  0 <= a < 256 -> 0 <= b < 256 ->
  let val := Z.lor (Z.shiftl a 16) (Z.shiftl b 8) in
  let q := quantum (Z.land (Z.shiftr val 18) 63) (Z.land (Z.shiftr val 12) 63)
             (Z.land (Z.shiftr val 6) 63) 0 in
  Z.land (Z.shiftr q 16) 255 = a /\ Z.land (Z.shiftr q 8) 255 = b.
Proof.
  intros Ha Hb val q. subst q.
  rewrite quantum_arith by (try apply sextet_range; lia).
  subst val. rewrite val2_arith by assumption.
  arith_bits. divmod.
Qed.

Lemma quantum1 a :
  0 <= a < 256 ->
  let val := Z.shiftl a 16 in
  let q := quantum (Z.land (Z.shiftr val 18) 63) (Z.land (Z.shiftr val 12) 63)
             0 0 in
  Z.land (Z.shiftr q 16) 255 = a.
Proof.
  intros Ha val q. subst q.
  rewrite quantum_arith by (try apply sextet_range; lia).
  subst val. arith_bits. divmod.
Qed.

Lemma decodeMap_encode i :
  0 <= i < 64 ->
  decodeMap (encode i) = Some i /\ Ascii.eqb (encode i) padChar = false.
Proof.
  intros Hi.
  replace i with (Z.of_nat (Z.to_nat i)) by lia.
  assert (Hn : (Z.to_nat i < 64)%nat) by lia.
  generalize dependent (Z.to_nat i). intros n Hn.
  do 64 (destruct n as [|n]; [vm_compute; split; reflexivity|]).
  lia.
Qed.

Lemma decodeMap_sextet z :
  decodeMap (encode (Z.land z 63)) = Some (Z.land z 63).
Proof. apply decodeMap_encode, sextet_range. Qed.

Lemma pad_sextet z : Ascii.eqb (encode (Z.land z 63)) padChar = false.
Proof. apply decodeMap_encode, sextet_range. Qed.

(** Decoding undoes encoding, for every byte string. *)
Lemma decoded_encoded s : decoded (encoded s) = Some s.
Proof.
  induction s as [|a|a b|a b c r IH] using string_by_triples.
  - reflexivity.
  - cbn [encoded decoded].
    rewrite !decodeMap_sextet. change (Ascii.eqb padChar padChar) with true.
    cbv iota. unfold out0.
    rewrite (quantum1 (byte_val a)) by apply byte_val_range.
    now rewrite byte_of_val.
  - cbn [encoded decoded].
    rewrite !decodeMap_sextet, !pad_sextet.
    change (Ascii.eqb padChar padChar) with true. cbv iota zeta.
    unfold out0, out1.
    destruct (quantum2 (byte_val a) (byte_val b)) as [-> ->];
      try apply byte_val_range.
    now rewrite !byte_of_val.
  - cbn [encoded decoded].
    rewrite !decodeMap_sextet, !pad_sextet, IH. cbv iota zeta.
    unfold out0, out1, out2.
    destruct (quantum3 (byte_val a) (byte_val b) (byte_val c))
      as (-> & -> & ->); try apply byte_val_range.
    now rewrite !byte_of_val.
Qed.

Lemma len_encoded s : len (encoded s) = EncodedLen (len s).
Proof.
  unfold EncodedLen.
  induction s as [|a|a b|a b c r IH] using string_by_triples.
  - reflexivity.
  - reflexivity.
  - reflexivity.
  - cbn [encoded]. cbn [len]. rewrite IH.
    pose proof (len_length r). Z.div_mod_to_equations. lia.
Qed.

(** In a destination of [EncodedLen] bytes, [Encode] leaves exactly the
    encoded text. *)
Lemma Encode_exact s :
  Encode (zeros (Z.to_nat (EncodedLen (len s)))) s = encoded s.
Proof.
  unfold Encode. rewrite <- len_encoded, len_length, Nat2Z.id.
  rewrite drop_zeros. apply append_empty_r.
Qed.

End Base64Facts.
(** ** The library models at work *)

Example canonical_keys :
  CanonicalMIMEHeaderKey "ibm-mq-rest-csrf-token" = "Ibm-Mq-Rest-Csrf-Token"
  /\ CanonicalMIMEHeaderKey "location" = "Location"
  /\ CanonicalMIMEHeaderKey "Content-Type" = "Content-Type"
  /\ CanonicalMIMEHeaderKey "not a token" = "not a token".
Proof. repeat split; vm_compute; reflexivity. Qed.

Example base64_text :
  Base64.encoded "Aladdin:open sesame" = "QWxhZGRpbjpvcGVuIHNlc2FtZQ=="
  /\ Base64.encoded "ab" = "YWI="
  /\ Base64.decoded "YWI=" = Some "ab"
  /\ Base64.decoded "YWI" = None.
Proof. repeat split; vm_compute; reflexivity. Qed.

Example fold_successful :
  EqualFold "Successful" "successful" = true
  /\ EqualFold "SUCCESSFUL" "successful" = true
  /\ EqualFold "partiallySuccessful" "successful" = false
  /\ EqualFold "successfu" "successful" = false
  /\ EqualFold (String (byte_of 197) (String (byte_of 191) "uccessful"))
       "successful" = true.
Proof. repeat split; vm_compute; reflexivity. Qed.

(** The text the builder produces: keys in sorted order, no white space. *)
Example buildTransferJsonRequest_text :
  buildTransferJsonRequest
  = dq "{'destinationAgent':{'name':'DEST','qmgrName':'DESTQM'},'sourceAgent':{'name':'SRC','qmgrName':'SRCQM'},'transferSet':{'item':[{'destination':{'name':'/usr/destdir','type':'directory'},'source':{'name':'/usr/srcdir','type':'file'}}]}}".
Proof. vm_compute. reflexivity. Qed.

Example gjson_paths :
  let json := dq "{'transfer':[{'id':'414d51','status':{'state':'failed'}}],'n':[1,2]}" in
  GjsonOps.Result_String offline (GjsonOps.Get offline json "transfer.0.status.state")
  = "failed"
  /\ GjsonOps.Result_String offline (GjsonOps.Get offline json "transfer.0.id")
     = "414d51"
  /\ GjsonOps.Get offline json "transfer.1" = noResult
  /\ GjsonOps.Get offline json "status" = noResult
  /\ length (GjsonOps.Result_Array offline (GjsonOps.Get offline json "n")) = 2%nat
  /\ GjsonOps.Result_Array offline (GjsonOps.Get offline json "absent") = [].
Proof. repeat split; vm_compute; reflexivity. Qed.
(** ** The request factory *)

Section RequestFacts.
Variable E : Env.

Lemma body_or_empty body : (if 0 <? len body then body else EmptyString) = body.
Proof. destruct body as [|c r]; [reflexivity|]. cbn [len].
  pose proof (len_length r). destruct (0 <? 1 + len r) eqn:Hlt; [reflexivity|lia].
Qed.

(** What a successfully built request looks like. *)
Lemma buildHTTPRequestHeader_Ok httpVerb url body userId password req :
  buildHTTPRequestHeader E httpVerb url body userId password = Ok req ->
  req = {| Method := if String.eqb httpVerb EmptyString then "GET" else httpVerb;
           URL := url;
           ReqHeader :=
             <["Content-Type" := ["application/json"]]>
               (<["Ibm-Mq-Rest-Csrf-Token" := [EmptyString]]>
                  (<["Authorization" :=
                       ["Basic " +:+ Base64.encoded (userId +:+ ":" +:+ password)]]> ∅));
           ReqBody := body |}.
Proof.
  unfold buildHTTPRequestHeader, NewRequest. rewrite body_or_empty.
  destruct (negb (validMethod _)); [discriminate|].
  destruct (url_Parse E url); [discriminate|].
  intros [= <-]. cbn [Method URL ReqBody ReqHeader].
  rewrite Encode_exact. reflexivity.
Qed.

Lemma cutColon_join userId password :
  contains ":" userId = false ->
  cutColon (userId +:+ ":" +:+ password) = Some (userId, password).
Proof.
  induction userId as [|c u IH]; intros H.
  - reflexivity.
  - rewrite append_cons. cbn [cutColon]. cbn [contains] in H.
    apply orb_false_elim in H as [Hc Hu].
    rewrite Ascii.eqb_sym in Hc. rewrite Hc, (IH Hu). reflexivity.
Qed.

End RequestFacts.

(** C7 (as amended): for every userId/password pair, a built request
    carries the [Authorization] value ["Basic "] followed by the standard
    base64 encoding of [userId ++ ":" ++ password]; base64-decoding the
    text after the prefix gives back the string [userId ++ ":" ++ password],
    and cutting it at the first colon gives back the pair whenever
    [userId] holds no colon. *)
Theorem authorization_basic_base64
  (E : Env) (httpVerb url body userId password : string) (req : Request) :
  buildHTTPRequestHeader E httpVerb url body userId password = Ok req ->
  let value := Header_Get (ReqHeader req) "Authorization" in
  value = "Basic " +:+ Base64.encoded (userId +:+ ":" +:+ password)
  /\ Base64.decoded (str_drop 6 value) = Some (userId +:+ ":" +:+ password)
  /\ (contains ":" userId = false ->
      decodeBasicAuth value = Some (userId, password)).
Proof.
  intros H value. apply buildHTTPRequestHeader_Ok in H.
  assert (Hv : value = "Basic " +:+ Base64.encoded (userId +:+ ":" +:+ password)).
  { subst value req. unfold Header_Get.
    change (CanonicalMIMEHeaderKey "Authorization") with "Authorization".
    cbn [ReqHeader].
    rewrite lookup_insert_ne by discriminate.
    rewrite lookup_insert_ne by discriminate.
    rewrite lookup_insert_eq. reflexivity. }
  rewrite Hv. split; [reflexivity|].
  assert (Hd : Base64.decoded
                 (str_drop 6 ("Basic " +:+ Base64.encoded (userId +:+ ":" +:+ password)))
               = Some (userId +:+ ":" +:+ password)).
  { change 6%nat with (String.length "Basic ").
    rewrite drop_app_length. apply decoded_encoded. }
  split; [exact Hd|].
  intros Hcolon. unfold decodeBasicAuth.
  rewrite isPrefix_app.
  rewrite Hd. apply cutColon_join, Hcolon.
Qed.

Lemma authorization_basic_base64_witness :
  exists req,
    buildHTTPRequestHeader offline "GET" "http://x/transfer/123?attributes=*" EmptyString
      "Aladdin" "open sesame" = Ok req
    /\ Header_Get (ReqHeader req) "Authorization"
       = "Basic QWxhZGRpbjpvcGVuIHNlc2FtZQ=="
    /\ decodeBasicAuth (Header_Get (ReqHeader req) "Authorization")
       = Some ("Aladdin", "open sesame").
Proof.
  eexists. split; [vm_compute; reflexivity|].
  match goal with
  | |- context [ReqHeader ?r] =>
      pose proof (authorization_basic_base64 offline "GET"
                    "http://x/transfer/123?attributes=*" EmptyString
                    "Aladdin" "open sesame" r eq_refl) as (H1 & _ & H3)
  end.
  split.
  - rewrite H1. vm_compute. reflexivity.
  - apply H3. vm_compute. reflexivity.
Defined.

(** C7, the claim as stated fails: the pairs [("a:b", "c")] and
    [("a", "b:c")] get the same [Authorization] value, and reading it
    back gives [("a", "b:c")], which for the first pair is not the
    original one. *)
Lemma authorization_pair_not_recovered :
  let built := buildHTTPRequestHeader offline "GET" "http://x/transfer/123" EmptyString
                 "a:b" "c" in
  let other := buildHTTPRequestHeader offline "GET" "http://x/transfer/123" EmptyString
                 "a" "b:c" in
  authorization built = "Basic YTpiOmM="
  /\ authorization other = authorization built
  /\ decodeBasicAuth (authorization built) = Some ("a", "b:c")
  /\ decodeBasicAuth (authorization built) <> Some ("a:b", "c").
Proof.
  vm_compute. repeat split; discriminate.
Qed.

(** C8 (as amended): every built request carries the header
    [Content-Type: application/json], whether a body is present or not. *)
Theorem content_type_always_set
  (E : Env) (httpVerb url body userId password : string) (req : Request) :
  buildHTTPRequestHeader E httpVerb url body userId password = Ok req ->
  ReqHeader req !! "Content-Type" = Some ["application/json"]
  /\ Header_Get (ReqHeader req) "Content-Type" = "application/json".
Proof.
  intros H. apply buildHTTPRequestHeader_Ok in H. subst req.
  unfold Header_Get.
  change (CanonicalMIMEHeaderKey "Content-Type") with "Content-Type".
  cbn [ReqHeader]. rewrite lookup_insert_eq. split; reflexivity.
Qed.

Lemma content_type_always_set_witness :
  exists req,
    buildHTTPRequestHeader offline "POST" mqRestXferUrl buildTransferJsonRequest
      mqWebUserId mqWebPassword = Ok req
    /\ ReqBody req = buildTransferJsonRequest
    /\ Header_Get (ReqHeader req) "Content-Type" = "application/json".
Proof.
  eexists. split; [vm_compute; reflexivity|].
  split; [vm_compute; reflexivity|].
  match goal with
  | |- context [ReqHeader ?r] =>
      exact (proj2 (content_type_always_set offline "POST" mqRestXferUrl
                      buildTransferJsonRequest mqWebUserId mqWebPassword
                      r eq_refl))
  end.
Defined.

(** C8, the claim as stated fails: the status GET is built with an empty
    body and still carries [Content-Type: application/json]. *)
Lemma content_type_on_empty_body :
  exists req,
    buildHTTPRequestHeader offline "GET" "http://x/transfer/123?attributes=*" EmptyString
      mqWebUserId mqWebPassword = Ok req
    /\ ReqBody req = EmptyString
    /\ ReqHeader req !! "Content-Type" = Some ["application/json"].
Proof.
  eexists. split; [vm_compute; reflexivity|]. split; reflexivity.
Qed.
(** ** Traces *)

Lemma polls_app t l : polls (t ++ l) = (polls t + polls l)%nat.
Proof.
  induction t as [|e t IH]; [reflexivity|].
  cbn [app polls]. destruct (is_poll e); rewrite IH; reflexivity.
Qed.

Lemma sleeps_app t l : sleeps (t ++ l) = sleeps t ++ sleeps l.
Proof.
  induction t as [|e t IH]; [reflexivity|].
  destruct e; cbn [app sleeps]; rewrite IH; reflexivity.
Qed.

Lemma calls_app t l : calls (t ++ l) = (calls t + calls l)%nat.
Proof.
  induction t as [|e t IH]; [reflexivity|].
  destruct e; cbn [app calls]; rewrite IH; reflexivity.
Qed.

Lemma item_lines_app t l : item_lines (t ++ l) = item_lines t ++ item_lines l.
Proof.
  induction t as [|e t IH]; [reflexivity|].
  cbn [app item_lines]. destruct (item_line e); rewrite IH; reflexivity.
Qed.

Lemma quiet_polls l : forallb quiet_event l = true -> polls l = 0%nat.
Proof.
  induction l as [|e l IH]; [reflexivity|].
  cbn [forallb polls]. intros H. apply andb_prop in H as [He Hl].
  unfold quiet_event in He. apply andb_prop in He as [Hp _].
  apply negb_true_iff in Hp. rewrite Hp. auto.
Qed.

Lemma quiet_sleeps l : forallb quiet_event l = true -> sleeps l = [].
Proof.
  induction l as [|e l IH]; [reflexivity|].
  cbn [forallb]. intros H. apply andb_prop in H as [He Hl].
  unfold quiet_event in He. apply andb_prop in He as [_ Hs].
  destruct e; try discriminate; cbn [sleeps]; auto.
Qed.

(** *** Computations that only add events of one kind *)

Section Extends.
Context {A B : Type} (P : event -> bool).

Lemma extends_ret (a : A) : extends P (ret a).
Proof. intros t. exists []. split; [symmetry; apply app_nil_r|reflexivity]. Qed.

Lemma extends_panic msg : extends P (@panic A msg).
Proof. intros t. exists []. split; [symmetry; apply app_nil_r|reflexivity]. Qed.

Lemma extends_emit e : P e = true -> extends P (emit e).
Proof.
  intros He t. exists [e]. split; [reflexivity|]. cbn [forallb]. now rewrite He.
Qed.

Lemma extends_bind (m : M A) (k : A -> M B) :
  extends P m -> (forall a, extends P (k a)) -> extends P (bind m k).
Proof.
  intros Hm Hk t. unfold bind.
  destruct (Hm t) as (l1 & E1 & F1). destruct (m t) as [[a|msg] t1].
  - cbn [snd] in E1. subst t1.
    destruct (Hk a (t ++ l1)) as (l2 & E2 & F2).
    exists (l1 ++ l2). rewrite E2, <- app_assoc. split; [reflexivity|].
    rewrite forallb_app, F1, F2. reflexivity.
  - exists l1. split; assumption.
Qed.

Lemma extends_defer_Close (m : M A) :
  P EvClose = true -> extends P m -> extends P (defer_Close m).
Proof.
  intros Hc Hm t. unfold defer_Close.
  destruct (Hm t) as (l & E1 & F1). destruct (m t) as [o t1].
  cbn [snd] in *. subst t1. exists (l ++ [EvClose]).
  rewrite <- app_assoc. split; [reflexivity|].
  rewrite forallb_app, F1. cbn [forallb]. now rewrite Hc.
Qed.

Lemma extends_at_index (l : list A) i : extends P (at_index l i).
Proof.
  unfold at_index. destruct (_ && _); [|apply extends_panic].
  destruct (l !! Z.to_nat i); [apply extends_ret|apply extends_panic].
Qed.

End Extends.

Lemma extends_Printf P format args :
  P (EvPrintf format args) = true -> extends P (Printf format args).
Proof. apply extends_emit. Qed.

Lemma extends_Do (P : event -> bool) E req :
  (forall r, P (EvDo r) = true) -> extends P (Do E req).
Proof.
  intros H t. exists [EvDo req]. split; [reflexivity|].
  cbn [forallb]. now rewrite H.
Qed.

Ltac extends_step :=
  first
    [ apply extends_ret
    | apply extends_panic
    | apply extends_at_index
    | apply extends_Do; intros ?; reflexivity
    | apply extends_Printf; reflexivity
    | apply extends_defer_Close; [reflexivity|]
    | apply extends_bind; [|intros ?]
    | match goal with
      | |- extends _ (match ?x with _ => _ end) => destruct x
      | |- extends _ (if ?b then _ else _) => destruct b
      end ].

Section ProgramTraces.
Variable E : Env.

Lemma at_index_lookup {A} (l : list A) i x :
  0 <= i -> l !! Z.to_nat i = Some x -> at_index l i = ret x.
Proof.
  intros Hi Hx. unfold at_index. rewrite Hx.
  apply lookup_lt_Some in Hx.
  replace (_ && _) with true
    by (symmetry; apply andb_true_intro; split;
        [apply Z.leb_le|apply Z.ltb_lt]; lia).
  reflexivity.
Qed.

(** From [index] on, the loop prints one line for every item whose state
    is not "successful", in order, and nothing else. *)
Lemma itemsLoop_trace n items i t :
  0 <= i -> (length items - Z.to_nat i <= n)%nat ->
  itemsLoop E n items i (Z.of_nat (length items)) t
  = (Ret tt, t ++ item_events E (skipn (Z.to_nat i) items)).
Proof.
  revert i t. induction n as [|n IH]; intros i t Hi Hn.
  - rewrite skipn_all2 by lia. cbn [itemsLoop]. unfold ret, item_events.
    cbn [List.filter map]. now rewrite app_nil_r.
  - cbn [itemsLoop]. destruct (i <? Z.of_nat (length items)) eqn:Hlt.
    + apply Z.ltb_lt in Hlt.
      destruct (lookup_lt_is_Some_2 items (Z.to_nat i)) as [x Hx]; [lia|].
      rewrite (drop_S _ _ _ Hx).
      unfold bind at 1. rewrite (at_index_lookup _ _ _ Hi Hx). unfold ret at 1.
      unfold item_events. cbn [List.filter].
      fold (item_state E x). fold (item_description E x).
      change (negb (EqualFold (item_state E x) "successful"))
        with (item_failed E x).
      replace (S (Z.to_nat i)) with (Z.to_nat (i + 1)) by lia.
      destruct (item_failed E x).
      * unfold bind, ret, Printf, emit.
        rewrite IH by lia. unfold item_events. cbn [map].
        rewrite <- app_assoc. reflexivity.
      * unfold bind, ret.
        rewrite IH by lia. reflexivity.
    + apply Z.ltb_ge in Hlt. rewrite skipn_all2 by lia.
      unfold ret, item_events. cbn [List.filter map]. now rewrite app_nil_r.
Qed.

Lemma itemsLoop_all items t :
  itemsLoop E (Z.to_nat (Z.of_nat (length items))) items 0
    (Z.of_nat (length items)) t
  = (Ret tt, t ++ item_events E items).
Proof.
  rewrite Nat2Z.id. apply (itemsLoop_trace (length items) items 0 t); lia.
Qed.

Lemma itemsLoop_guarded items t :
  (if 0 <? Z.of_nat (length items)
   then itemsLoop E (Z.to_nat (Z.of_nat (length items))) items 0
          (Z.of_nat (length items))
   else ret tt) t
  = (Ret tt, t ++ item_events E items).
Proof.
  destruct items as [|item items].
  - unfold ret, item_events. cbn. now rewrite app_nil_r.
  - replace (0 <? _) with true
      by (symmetry; apply Z.ltb_lt; cbn [length]; lia).
    apply itemsLoop_all.
Qed.

Lemma item_lines_item_events items :
  item_lines (item_events E items)
  = map (item_description E) (List.filter (item_failed E) items).
Proof.
  unfold item_events.
  induction (List.filter (item_failed E) items) as [|x l IH]; [reflexivity|].
  cbn [map item_lines]. rewrite IH. reflexivity.
Qed.

Lemma itemsLoop_quiet n items i count : extends quiet_event (itemsLoop E n items i count).
Proof.
  revert i. induction n as [|n IH]; intros i; cbn [itemsLoop].
  - apply extends_ret.
  - repeat extends_step. apply IH.
Qed.

(** [postTransferRequest] never panics, and adds neither a poll nor a
    sleep to the trace. *)
Lemma postTransferRequest_quiet json :
  extends quiet_event (postTransferRequest E json).
Proof. unfold postTransferRequest. repeat extends_step. Qed.

End ProgramTraces.
(** ** The submitter *)

Ltac run_M :=
  unfold bind, Printf, emit, ret, defer_Close, Do, panic, Sleep;
  cbn beta iota zeta.

Section Submit.
Variable E : Env.

Lemma postTransferRequest_returns json t :
  exists r, fst (postTransferRequest E json t) = Ret r.
Proof.
  unfold postTransferRequest. run_M.
  destruct (buildHTTPRequestHeader E _ _ _ _ _); [|eexists; reflexivity].
  destruct (client_Do E _ _) as [resp|e]; [|eexists; reflexivity].
  destruct (Body resp); [|eexists; reflexivity].
  destruct (StatusCode resp =? StatusAccepted); eexists; reflexivity.
Qed.

(** The result of the submitter once a response has arrived. *)
Lemma postTransferRequest_response json t httpPOST respPost :
  buildHTTPRequestHeader E "POST" mqRestXferUrl json mqWebUserId mqWebPassword
  = Ok httpPOST ->
  client_Do E (calls t) httpPOST = DoResp respPost ->
  fst (postTransferRequest E json t)
  = match Body respPost with
    | ReadOk _ =>
        Ret (StatusCode respPost,
             if StatusCode respPost =? 202
             then Header_Get (RespHeader respPost) "location"
             else EmptyString)
    | ReadErr _ => Ret (-1, EmptyString)
    end.
Proof.
  intros Hb Hd. unfold postTransferRequest. rewrite Hb. run_M. rewrite Hd.
  destruct (Body respPost); [|reflexivity].
  unfold StatusAccepted. destruct (StatusCode respPost =? 202); reflexivity.
Qed.

End Submit.

(** C2: when a response arrives and its body can be read,
    [postTransferRequest] returns the status code of the response, paired
    with the value of the [location] header when the code is 202 and with
    the empty string for any other code. *)
Theorem postTransferRequest_status_and_handle
  (E : Env) (xferRequestJson : string) (t : list event)
  (httpPOST : Request) (respPost : Response) (data : string) :
  buildHTTPRequestHeader E "POST" mqRestXferUrl xferRequestJson
    mqWebUserId mqWebPassword = Ok httpPOST ->
  client_Do E (calls t) httpPOST = DoResp respPost ->
  Body respPost = ReadOk data ->
  let returned := fst (postTransferRequest E xferRequestJson t) in
  (StatusCode respPost = 202 ->
   returned = Ret (202, Header_Get (RespHeader respPost) "location"))
  /\ (StatusCode respPost <> 202 ->
      returned = Ret (StatusCode respPost, EmptyString)).
Proof.
  intros Hb Hd Hr returned. subst returned.
  rewrite (postTransferRequest_response E _ _ _ _ Hb Hd), Hr.
  split; intros Hc.
  - rewrite Hc. reflexivity.
  - apply Z.eqb_neq in Hc. rewrite Hc. reflexivity.
Qed.

Lemma postTransferRequest_status_and_handle_witness :
  fst (postTransferRequest (accepting notFound) buildTransferJsonRequest [])
  = Ret (202, "http://x/transfer/123").
Proof.
  refine (proj1 (postTransferRequest_status_and_handle (accepting notFound)
                   buildTransferJsonRequest [] _ accepted EmptyString _ _ _) _);
    [vm_compute; reflexivity|reflexivity|reflexivity|reflexivity].
Defined.

(** C5: when building the request or the HTTP transport fails,
    [postTransferRequest] returns the code -1, which no response carries
    as its status code, with an empty handle, having called the server at
    most once. *)
Theorem postTransferRequest_failure
  (E : Env) (xferRequestJson : string) (t : list event) :
  (exists errPOST,
      buildHTTPRequestHeader E "POST" mqRestXferUrl xferRequestJson
        mqWebUserId mqWebPassword = Err errPOST)
  \/ (exists httpPOST errPost,
         buildHTTPRequestHeader E "POST" mqRestXferUrl xferRequestJson
           mqWebUserId mqWebPassword = Ok httpPOST
         /\ client_Do E (calls t) httpPOST = DoErr errPost) ->
  let run := postTransferRequest E xferRequestJson t in
  fst run = Ret (-1, EmptyString)
  /\ (calls (snd run) <= S (calls t))%nat
  /\ (forall code, valid_StatusCode code -> code <> -1).
Proof.
  intros H run. subst run. unfold postTransferRequest.
  split; [|split].
  - destruct H as [[e ->]|(req & e & -> & Hd)]; run_M; [reflexivity|].
    rewrite Hd. reflexivity.
  - destruct H as [[e ->]|(req & e & -> & Hd)]; run_M.
    + cbn [snd]. rewrite calls_app. cbn [calls]. lia.
    + rewrite Hd. cbn [snd]. rewrite !calls_app. cbn [calls]. lia.
  - unfold valid_StatusCode. lia.
Qed.

Lemma postTransferRequest_failure_witness :
  fst (postTransferRequest offline buildTransferJsonRequest [])
  = Ret (-1, EmptyString)
  /\ calls (snd (postTransferRequest offline buildTransferJsonRequest [])) = 1%nat.
Proof.
  split.
  - refine (proj1 (postTransferRequest_failure offline
                     buildTransferJsonRequest [] _)).
    right. eexists. eexists. split; [vm_compute; reflexivity|reflexivity].
  - vm_compute. reflexivity.
Defined.
(** ** The status poller *)

Section Poll.
Variable E : Env.

(** Every invocation prints the mark of a poll once, first, and adds no
    sleep. *)
Lemma waitForTransferStatus_trace transferUrl t :
  exists l,
    snd (waitForTransferStatus E transferUrl t) = t ++ pollMark :: l
    /\ forallb quiet_event l = true.
Proof.
  unfold waitForTransferStatus. unfold bind at 1. unfold Printf at 1.
  unfold emit at 1. cbv beta iota.
  match goal with
  | |- exists l, snd (?m _) = _ /\ _ =>
      assert (Hq : extends quiet_event m)
  end.
  { repeat extends_step. apply itemsLoop_quiet. }
  destruct (Hq (t ++ [EvPrintf ("Querying status of transfer" +:+ LF) []]))
    as (l & Hl & Fl).
  exists l. rewrite Hl, <- app_assoc. split; [reflexivity|exact Fl].
Qed.

Lemma waitForTransferStatus_polls transferUrl t :
  polls (snd (waitForTransferStatus E transferUrl t)) = S (polls t)
  /\ sleeps (snd (waitForTransferStatus E transferUrl t)) = sleeps t.
Proof.
  destruct (waitForTransferStatus_trace transferUrl t) as (l & -> & Fl).
  rewrite polls_app, sleeps_app. cbn [polls sleeps].
  change (is_poll pollMark) with true. cbv iota.
  rewrite (quiet_polls l Fl), (quiet_sleeps l Fl), app_nil_r. split; [lia|].
  reflexivity.
Qed.

(** The sentinel: no request could be built, or the transport failed. *)
Lemma waitForTransferStatus_sentinel transferUrl t :
  (exists errGET,
      buildHTTPRequestHeader E "GET" (transferUrl +:+ "?attributes=*") EmptyString
        mqWebUserId mqWebPassword = Err errGET)
  \/ (exists httpGET errGET,
         buildHTTPRequestHeader E "GET" (transferUrl +:+ "?attributes=*") EmptyString
           mqWebUserId mqWebPassword = Ok httpGET
         /\ client_Do E (calls t) httpGET = DoErr errGET) ->
  fst (waitForTransferStatus E transferUrl t) = Ret (-1).
Proof.
  unfold waitForTransferStatus.
  intros [[e ->]|(req & e & -> & Hd)]; run_M; [reflexivity|].
  rewrite calls_app, Nat.add_0_r, Hd. reflexivity.
Qed.

(** The whole run of the poller on a 200 response whose [transfer] array
    has a first element. *)
Lemma waitForTransferStatus_200 transferUrl t httpGET respGET respBody first rest :
  buildHTTPRequestHeader E "GET" (transferUrl +:+ "?attributes=*") EmptyString
    mqWebUserId mqWebPassword = Ok httpGET ->
  client_Do E (calls t) httpGET = DoResp respGET ->
  StatusCode respGET = 200 ->
  Body respGET = ReadOk respBody ->
  GjsonOps.Result_Array E (GjsonOps.Get E respBody "transfer") = first :: rest ->
  let doc := GjsonOps.Result_String E first in
  let state := GjsonOps.Result_String E (GjsonOps.Get E doc "status.state") in
  let id := GjsonOps.Result_String E (GjsonOps.Get E doc "id") in
  let description :=
    GjsonOps.Result_String E (GjsonOps.Get E doc "status.description") in
  let items := GjsonOps.Result_Array E (GjsonOps.Get E doc "transferSet.item") in
  waitForTransferStatus E transferUrl t
  = (Ret 200,
     t ++ [pollMark; EvDo httpGET;
           EvPrintf ("Status of transfer with ID %v is %v" +:+ LF)
             [AStr id; AStr state]]
       ++ (if EqualFold state "successful" then []
           else EvPrintf ("%s" +:+ LF +:+ "Following errors occurred:" +:+ LF)
                  [AStr description] :: item_events E items)
       ++ [EvClose]).
Proof.
  intros Hb Hd Hc Hr Ha doc state id description items.
  unfold waitForTransferStatus. rewrite Hb.
  unfold bind at 1. unfold Printf at 1. unfold emit at 1. cbv beta iota.
  unfold bind at 1. unfold Do at 1. rewrite calls_app, Nat.add_0_r, Hd.
  cbv beta iota. unfold defer_Close. rewrite Hc, Hr.
  change (200 =? StatusOK) with true. cbv beta iota.
  rewrite Ha. unfold at_index. cbn [length lookup list_lookup Z.to_nat].
  change (Z.to_nat 0) with O. cbn [lookup list_lookup].
  change ((0 <=? 0) && (0 <? Z.of_nat (S (length rest)))) with true.
  cbv iota. subst doc state id description items.
  run_M.
  destruct (EqualFold _ "successful"); cbn [negb]; cbv iota.
  - rewrite <- !app_assoc. reflexivity.
  - rewrite itemsLoop_guarded. rewrite <- !app_assoc. reflexivity.
Qed.

(** Whenever the poller returns at all after a response, it returns the
    status code of that response. *)
Lemma waitForTransferStatus_returns_status transferUrl t httpGET respGET :
  buildHTTPRequestHeader E "GET" (transferUrl +:+ "?attributes=*") EmptyString
    mqWebUserId mqWebPassword = Ok httpGET ->
  client_Do E (calls t) httpGET = DoResp respGET ->
  StatusCode respGET <> 200
  \/ (exists errGET, Body respGET = ReadErr errGET)
  \/ (exists respBody first rest,
         Body respGET = ReadOk respBody
         /\ GjsonOps.Result_Array E (GjsonOps.Get E respBody "transfer")
            = first :: rest) ->
  fst (waitForTransferStatus E transferUrl t) = Ret (StatusCode respGET).
Proof.
  intros Hb Hd H.
  destruct (Z.eq_dec (StatusCode respGET) 200) as [Hc|Hc].
  - destruct H as [H|[[e Hr]|(body & first & rest & Hr & Ha)]]; [contradiction| |].
    + unfold waitForTransferStatus. rewrite Hb. run_M.
      rewrite calls_app, Nat.add_0_r, Hd, Hc, Hr. reflexivity.
    + rewrite (waitForTransferStatus_200 _ _ _ _ _ _ _ Hb Hd Hc Hr Ha), Hc.
      reflexivity.
  - unfold waitForTransferStatus. rewrite Hb. run_M.
    rewrite calls_app, Nat.add_0_r, Hd.
    apply Z.eqb_neq in Hc. unfold StatusOK. rewrite Hc. reflexivity.
Qed.

(** A 200 response without a first transfer makes the poller panic. *)
Lemma waitForTransferStatus_panics transferUrl t httpGET respGET respBody :
  buildHTTPRequestHeader E "GET" (transferUrl +:+ "?attributes=*") EmptyString
    mqWebUserId mqWebPassword = Ok httpGET ->
  client_Do E (calls t) httpGET = DoResp respGET ->
  StatusCode respGET = 200 ->
  Body respGET = ReadOk respBody ->
  GjsonOps.Result_Array E (GjsonOps.Get E respBody "transfer") = [] ->
  fst (waitForTransferStatus E transferUrl t)
  = Panic (IndexOutOfRange 0 0).
Proof.
  intros Hb Hd Hc Hr Ha.
  unfold waitForTransferStatus. rewrite Hb. run_M.
  rewrite calls_app, Nat.add_0_r, Hd, Hc, Hr. cbn [StatusOK Z.eqb].
  change (200 =? StatusOK) with true. cbv iota.
  rewrite Ha. reflexivity.
Qed.

End Poll.

(** C3: on a 200 response with a readable body whose [transfer] array has
    a first element, the poller returns 200; when the state of that element
    is not "successful" up to case, the per-item lines it prints are the
    descriptions of exactly the items of [transferSet.item] whose state is
    not "successful" up to case, each once and in order; when the state
    is "successful", it prints no per-item line. *)
Theorem per_item_failure_lines
  (E : Env) (transferUrl : string) (t : list event)
  (httpGET : Request) (respGET : Response) (respBody : string)
  (first : Result) (rest : list Result) :
  buildHTTPRequestHeader E "GET" (transferUrl +:+ "?attributes=*") EmptyString
    mqWebUserId mqWebPassword = Ok httpGET ->
  client_Do E (calls t) httpGET = DoResp respGET ->
  StatusCode respGET = 200 ->
  Body respGET = ReadOk respBody ->
  GjsonOps.Result_Array E (GjsonOps.Get E respBody "transfer") = first :: rest ->
  let doc := GjsonOps.Result_String E first in
  let state := GjsonOps.Result_String E (GjsonOps.Get E doc "status.state") in
  let items := GjsonOps.Result_Array E (GjsonOps.Get E doc "transferSet.item") in
  let run := waitForTransferStatus E transferUrl t in
  fst run = Ret 200
  /\ exists out,
       snd run = t ++ out
       /\ (EqualFold state "successful" = false ->
           item_lines out
           = map (item_description E) (List.filter (item_failed E) items))
       /\ (EqualFold state "successful" = true -> item_lines out = []).
Proof.
  intros Hb Hd Hc Hr Ha doc state items run. subst run.
  rewrite (waitForTransferStatus_200 E _ _ _ _ _ _ _ Hb Hd Hc Hr Ha).
  fold doc. fold state. fold items. split; [reflexivity|].
  eexists. split; [reflexivity|].
  rewrite !item_lines_app. cbn [item_lines item_line app].
  split; intros ->.
  - cbn [item_lines item_line].
    change (String.eqb _ ("%s" +:+ LF)) with false. cbv iota.
    rewrite item_lines_item_events, app_nil_r. reflexivity.
  - reflexivity.
Qed.

Lemma per_item_failure_lines_witness :
  exists out,
    snd (waitForTransferStatus (accepting oneItemFailed)
           "http://x/transfer/123" [EvDo {| Method := "POST"; URL := mqRestXferUrl; ReqHeader := ∅; ReqBody := EmptyString |}])
    = [EvDo {| Method := "POST"; URL := mqRestXferUrl; ReqHeader := ∅; ReqBody := EmptyString |}] ++ out
    /\ item_lines out = ["disk full"].
Proof.
  edestruct (per_item_failure_lines (accepting oneItemFailed)
               "http://x/transfer/123"
               [EvDo {| Method := "POST"; URL := mqRestXferUrl; ReqHeader := ∅; ReqBody := EmptyString |}])
    as (_ & out & Hout & Hfail & _);
    [vm_compute; reflexivity|reflexivity|reflexivity|reflexivity
    |vm_compute; reflexivity|].
  exists out. split; [exact Hout|].
  rewrite Hfail by (vm_compute; reflexivity). vm_compute. reflexivity.
Defined.
(** ** The top-level flow *)

Section Main.
Variable E : Env.

Lemma main_cases t :
  main E t
  = match postTransferRequest E buildTransferJsonRequest t with
    | (Ret posted, t1) =>
        if fst posted =? 202 then
          match waitForTransferStatus E (snd posted) t1 with
          | (Ret respCode, t2) =>
              if negb (respCode =? 200) then
                match waitForTransferStatus E (snd posted)
                        (t2 ++ [EvSleep (5 * Second)]) with
                | (Ret _, t3) => (Ret tt, t3)
                | (Panic msg, t3) => (Panic msg, t3)
                end
              else (Ret tt, t2)
          | (Panic msg, t2) => (Panic msg, t2)
          end
        else (Ret tt, t1)
    | (Panic msg, t1) => (Panic msg, t1)
    end.
Proof.
  unfold main, bind, Sleep, emit, ret, StatusAccepted, StatusOK.
  destruct (postTransferRequest E buildTransferJsonRequest t) as [[posted|msg] t1];
    [|reflexivity].
  destruct (fst posted =? 202); [|reflexivity].
  destruct (waitForTransferStatus E (snd posted) t1) as [[respCode|msg] t2];
    [|reflexivity].
  destruct (negb (respCode =? 200)); reflexivity.
Qed.

Lemma postTransferRequest_polls json t :
  polls (snd (postTransferRequest E json t)) = polls t
  /\ sleeps (snd (postTransferRequest E json t)) = sleeps t.
Proof.
  destruct (postTransferRequest_quiet E json t) as (l & -> & Fl).
  rewrite polls_app, sleeps_app, (quiet_polls l Fl), (quiet_sleeps l Fl).
  rewrite app_nil_r. split; [lia|reflexivity].
Qed.

(** Without a 202 from the submitter the flow ends there. *)
Lemma main_not_accepted t retCode transferUrl :
  fst (postTransferRequest E buildTransferJsonRequest t)
  = Ret (retCode, transferUrl) ->
  retCode <> 202 ->
  main E t = (Ret tt, snd (postTransferRequest E buildTransferJsonRequest t)).
Proof.
  intros Hp Hc. rewrite main_cases.
  destruct (postTransferRequest E buildTransferJsonRequest t) as [o t1].
  cbn [fst snd] in *. subst o. cbn [fst].
  apply Z.eqb_neq in Hc. rewrite Hc. reflexivity.
Qed.

End Main.

(** C1: the flow polls only after the submitter returned 202; when the
    first poll returns a code other than 200 it sleeps 5 seconds and polls
    once more; the poll is invoked at most twice in every run and not at all
    when the submitter returned anything but 202. *)
Theorem main_polls_at_most_twice (E : Env) :
  let submitted := postTransferRequest E buildTransferJsonRequest [] in
  let final := snd (main E []) in
  (polls final <= 2)%nat
  /\ (forall retCode transferUrl,
         fst submitted = Ret (retCode, transferUrl) ->
         retCode <> 202 ->
         polls final = 0%nat /\ final = snd submitted)
  /\ (forall transferUrl,
         fst submitted = Ret (202, transferUrl) ->
         let first := waitForTransferStatus E transferUrl (snd submitted) in
         (forall respCode,
             fst first = Ret respCode ->
             respCode <> 200 ->
             final = snd (waitForTransferStatus E transferUrl
                            (snd first ++ [EvSleep (5 * Second)]))
             /\ polls final = 2%nat
             /\ sleeps final = [5000000000])
         /\ (fst first = Ret 200 ->
             final = snd first /\ polls final = 1%nat /\ sleeps final = [])).
Proof.
  intros submitted final.
  pose proof (postTransferRequest_polls E buildTransferJsonRequest []) as [Pp Ps].
  fold submitted in Pp, Ps. cbn [polls sleeps] in Pp, Ps.
  assert (Hfinal : final = snd (main E [])) by reflexivity.
  rewrite main_cases in Hfinal. fold submitted in Hfinal.
  destruct submitted as [[[retCode transferUrl]|msg] t1] eqn:Hsub; cbn [fst snd] in *.
  2:{ destruct (postTransferRequest_returns E buildTransferJsonRequest [])
        as [r Hr]. fold submitted in Hr. rewrite Hsub in Hr. discriminate. }
  destruct (retCode =? 202) eqn:Hc.
  - apply Z.eqb_eq in Hc. subst retCode.
    pose proof (waitForTransferStatus_polls E transferUrl t1) as [Wp Ws].
    destruct (waitForTransferStatus E transferUrl t1) as [[respCode|msg] t2] eqn:Hw;
      cbn [fst snd] in *.
    + destruct (respCode =? 200) eqn:Hr; cbn [negb] in Hfinal.
      * cbn [snd] in Hfinal. apply Z.eqb_eq in Hr. subst respCode.
        split; [rewrite Hfinal, Wp, Pp; lia|].
        split; [intros ? ? [= -> ->] Hne; contradiction|].
        intros url [= <-]. rewrite Hw. cbn [fst snd]. split.
        -- intros c [= <-] Hne. contradiction.
        -- intros _. rewrite Hfinal, Wp, Ws, Pp, Ps. auto.
      * pose proof (waitForTransferStatus_polls E transferUrl
                      (t2 ++ [EvSleep (5 * Second)])) as [Wp2 Ws2].
        assert (Hf2 : final = snd (waitForTransferStatus E transferUrl
                                     (t2 ++ [EvSleep (5 * Second)]))).
        { rewrite Hfinal.
          destruct (waitForTransferStatus E transferUrl
                      (t2 ++ [EvSleep (5 * Second)])) as [[c|m] t3]; reflexivity. }
        rewrite polls_app in Wp2. rewrite sleeps_app in Ws2.
        cbn [polls sleeps is_poll] in Wp2, Ws2.
        rewrite Wp, Pp in Wp2. rewrite Ws, Ps in Ws2.
        split; [rewrite Hf2, Wp2; lia|].
        split; [intros ? ? [= -> ->] Hne; contradiction|].
        intros url [= <-]. rewrite Hw. cbn [fst snd]. split.
        -- intros c [= <-] Hne. rewrite Hf2 at 2 3. rewrite Wp2, Ws2.
           split; [exact Hf2|]. split; reflexivity.
        -- intros [= ->]. discriminate.
    + cbn [snd] in Hfinal.
      split; [rewrite Hfinal, Wp, Pp; lia|].
      split; [intros ? ? [= -> ->] Hne; contradiction|].
      intros url [= <-]. rewrite Hw. cbn [fst snd]. split.
      * intros c [=].
      * intros [=].
  - cbn [snd] in Hfinal. apply Z.eqb_neq in Hc.
    split; [rewrite Hfinal, Pp; lia|].
    split.
    + intros ? ? [= <- <-] _. rewrite Hfinal, Pp. auto.
    + intros url [= -> <-]. contradiction.
Qed.

Lemma main_polls_at_most_twice_witness :
  polls (snd (main (accepting notFound) [])) = 2%nat
  /\ sleeps (snd (main (accepting notFound) [])) = [5000000000].
Proof.
  destruct (main_polls_at_most_twice (accepting notFound)) as (_ & _ & H).
  destruct (H "http://x/transfer/123") as [Hretry _]; [vm_compute; reflexivity|].
  destruct (Hretry 404) as (_ & Hp & Hs);
    [vm_compute; reflexivity|discriminate|].
  split; assumption.
Defined.
(** C10: when the POST is answered but the body of the response cannot be
    read, [postTransferRequest] returns -1 and an empty handle, not the
    status code received; for the request of the program, even on a 202,
    the flow then ends without a poll. *)
Theorem postTransferRequest_unreadable_body
  (E : Env) (xferRequestJson : string) (t : list event)
  (httpPOST : Request) (respPost : Response) (err : error) :
  buildHTTPRequestHeader E "POST" mqRestXferUrl xferRequestJson
    mqWebUserId mqWebPassword = Ok httpPOST ->
  client_Do E (calls t) httpPOST = DoResp respPost ->
  Body respPost = ReadErr err ->
  fst (postTransferRequest E xferRequestJson t) = Ret (-1, EmptyString)
  /\ (xferRequestJson = buildTransferJsonRequest ->
      fst (main E t) = Ret tt
      /\ polls (snd (main E t)) = polls t
      /\ calls (snd (main E t)) = S (calls t)).
Proof.
  intros Hb Hd Hr.
  assert (Hp : fst (postTransferRequest E xferRequestJson t) = Ret (-1, EmptyString)).
  { rewrite (postTransferRequest_response E _ _ _ _ Hb Hd), Hr. reflexivity. }
  split; [exact Hp|]. intros ->.
  rewrite (main_not_accepted E t (-1) EmptyString Hp) by discriminate.
  cbn [fst snd]. split; [reflexivity|].
  split; [apply postTransferRequest_polls|].
  unfold postTransferRequest. rewrite Hb. run_M. rewrite Hd, Hr.
  cbn [snd]. rewrite !calls_app. cbn [calls]. lia.
Qed.

Lemma postTransferRequest_unreadable_body_witness :
  fst (postTransferRequest
         (scripted (DoResp (unreadable 202 "202 Accepted")) (DoResp notFound))
         buildTransferJsonRequest [])
  = Ret (-1, EmptyString)
  /\ polls (snd (main (scripted (DoResp (unreadable 202 "202 Accepted"))
                         (DoResp notFound)) []))
     = 0%nat.
Proof.
  edestruct (postTransferRequest_unreadable_body
               (scripted (DoResp (unreadable 202 "202 Accepted")) (DoResp notFound))
               buildTransferJsonRequest [])
    as (Hp & Hm); [vm_compute; reflexivity|reflexivity|reflexivity|].
  split; [exact Hp|]. apply (Hm eq_refl).
Defined.

(** C4, where the program fails: the transfer is accepted and the status
    query is answered 200 with a body whose [transfer] array is empty, or
    absent; [respJson[0]] is then out of range and the program panics
    instead of completing. *)
Theorem main_panics_without_transfer :
  fst (main (accepting emptyTransfer) [])
  = Panic (IndexOutOfRange 0 0)
  /\ fst (main (accepting absentTransfer) [])
     = Panic (IndexOutOfRange 0 0).
Proof. split; vm_compute; reflexivity. Qed.

(** C6, where the poller fails: a response arrives, with status code 200
    and the body [{}], and the poller panics on [respJson[0]] instead of
    returning 200. *)
Theorem waitForTransferStatus_panics_on_200 :
  fst (waitForTransferStatus
         (scripted (DoResp absentTransfer) (DoResp absentTransfer))
         "http://x/transfer/123" [])
  = Panic (IndexOutOfRange 0 0).
Proof. vm_compute. reflexivity. Qed.

(** ** The request builder *)

(** C9: the text [buildTransferJsonRequest] produces parses as JSON, and
    the parsed value holds the configured constants at the paths they were
    put under; [transferSet.item] is an array of one element. *)
Theorem buildTransferJsonRequest_round_trip :
  exists v item,
    parse buildTransferJsonRequest = Some v
    /\ field v "sourceAgent.qmgrName" = Some sourceQMName
    /\ field v "sourceAgent.name" = Some sourceAgentName
    /\ field v "destinationAgent.qmgrName" = Some destinationQMName
    /\ field v "destinationAgent.name" = Some destinationAgentName
    /\ elements v "transferSet.item" = Some [item]
    /\ field item "source.name" = Some sourceItemName
    /\ field item "source.type" = Some sourceItemType
    /\ field item "destination.name" = Some destinationItemName
    /\ field item "destination.type" = Some destinationItemType.
Proof.
  eexists. eexists. split; [vm_compute; reflexivity|].
  repeat split; vm_compute; reflexivity.
Qed.
(** * Further properties of the program *)

(** ** The request factory, continued *)

Section RequestMore.
Variable E : Env.

Lemma authorization_value httpVerb url body userId password req :
  buildHTTPRequestHeader E httpVerb url body userId password = Ok req ->
  Header_Get (ReqHeader req) "Authorization"
  = "Basic " +:+ Base64.encoded (userId +:+ ":" +:+ password).
Proof.
  intros H. apply buildHTTPRequestHeader_Ok in H. subst req.
  unfold Header_Get.
  change (CanonicalMIMEHeaderKey "Authorization") with "Authorization".
  cbn [ReqHeader].
  rewrite lookup_insert_ne by discriminate.
  rewrite lookup_insert_ne by discriminate.
  rewrite lookup_insert_eq. reflexivity.
Qed.

Lemma is_b64_sextet z : is_b64 (Base64.encode (Z.land z 63)) = true.
Proof.
  pose proof (sextet_range z) as Hi. generalize dependent (Z.land z 63).
  intros i Hi.
  replace i with (Z.of_nat (Z.to_nat i)) by lia.
  assert (Hn : (Z.to_nat i < 64)%nat) by lia.
  generalize dependent (Z.to_nat i). intros n Hn.
  do 64 (destruct n as [|n]; [vm_compute; reflexivity|]).
  lia.
Qed.

Lemma all_b64_encoded s : all_bytes is_b64 (Base64.encoded s) = true.
Proof.
  induction s as [|a|a b|a b c r IH] using string_by_triples;
    cbn [Base64.encoded all_bytes]; rewrite ?is_b64_sextet, ?IH; reflexivity.
Qed.

Lemma append_inj_l p s1 s2 : p +:+ s1 = p +:+ s2 -> s1 = s2.
Proof.
  intros H. rewrite <- (drop_app_length p s1), <- (drop_app_length p s2).
  now rewrite H.
Qed.

Lemma encoded_inj s1 s2 : Base64.encoded s1 = Base64.encoded s2 -> s1 = s2.
Proof.
  intros H. pose proof (decoded_encoded s1) as H1.
  rewrite H, decoded_encoded in H1. congruence.
Qed.

End RequestMore.

(** X1: building a request fails exactly when the method is not a token
    (first) or the URL does not parse (second), with that error; neither
    the body nor the credentials can make it fail. *)
Theorem buildHTTPRequestHeader_fails_iff
  (E : Env) (httpVerb url body userId password : string) (e : error) :
  buildHTTPRequestHeader E httpVerb url body userId password = Err e
  <-> (validMethod (method_of httpVerb) = false
       /\ e = InvalidMethod (method_of httpVerb))
      \/ (validMethod (method_of httpVerb) = true /\ url_Parse E url = Some e).
Proof.
  unfold buildHTTPRequestHeader, NewRequest, method_of.
  destruct (validMethod _) eqn:Hm; cbn [negb].
  - destruct (url_Parse E url) as [e'|] eqn:Hu.
    + split.
      * intros [= ->]. right. auto.
      * intros [[? _]|[_ [= ->]]]; [discriminate|reflexivity].
    + split; [discriminate|].
      intros [[? _]|[_ ?]]; discriminate.
  - split.
    + intros [= <-]. left. auto.
    + intros [[_ ->]|[? _]]; [reflexivity|discriminate].
Qed.

(** X2: a built request keeps the verb (GET when none is named), the URL
    and the body, and carries exactly three headers, under their canonical
    names; the CSRF token header is present and blank. *)
Theorem built_request_shape
  (E : Env) (httpVerb url body userId password : string) (req : Request) :
  buildHTTPRequestHeader E httpVerb url body userId password = Ok req ->
  Method req = method_of httpVerb
  /\ URL req = url
  /\ ReqBody req = body
  /\ ReqHeader req !! "Ibm-Mq-Rest-Csrf-Token" = Some [EmptyString]
  /\ dom (ReqHeader req)
     = ({["Authorization"; "Ibm-Mq-Rest-Csrf-Token"; "Content-Type"]} : gset string).
Proof.
  intros H. apply buildHTTPRequestHeader_Ok in H. subst req.
  cbn [Method URL ReqBody ReqHeader]. unfold method_of.
  split; [reflexivity|]. split; [reflexivity|]. split; [reflexivity|].
  split.
  - rewrite lookup_insert_ne by discriminate. apply lookup_insert_eq.
  - rewrite !dom_insert_L, dom_empty_L. set_solver.
Qed.

Lemma built_request_shape_witness :
  exists req,
    buildHTTPRequestHeader offline EmptyString "http://x/transfer/123" "{}"
      mqWebUserId mqWebPassword = Ok req
    /\ Method req = "GET"
    /\ ReqBody req = "{}"
    /\ size (ReqHeader req) = 3%nat.
Proof.
  eexists. split; [vm_compute; reflexivity|].
  match goal with
  | |- context [ReqHeader ?r] =>
      destruct (built_request_shape offline EmptyString "http://x/transfer/123"
                  "{}" mqWebUserId mqWebPassword r eq_refl)
        as (Hm & _ & Hb & _ & Hd)
  end.
  split; [exact Hm|]. split; [exact Hb|]. vm_compute. reflexivity.
Defined.

(** X3: whatever bytes the credentials hold, the [Authorization] value is
    ["Basic "] followed by characters of the base64 alphabet and padding
    only, [(n + 2) / 3 * 4] of them for [n] bytes of [userId:password]. *)
Theorem authorization_is_base64_text
  (E : Env) (httpVerb url body userId password : string) (req : Request) :
  buildHTTPRequestHeader E httpVerb url body userId password = Ok req ->
  exists enc,
    Header_Get (ReqHeader req) "Authorization" = "Basic " +:+ enc
    /\ all_bytes is_b64 enc = true
    /\ len enc = (len userId + 1 + len password + 2) / 3 * 4.
Proof.
  intros H. exists (Base64.encoded (userId +:+ ":" +:+ password)).
  split; [exact (authorization_value E _ _ _ _ _ _ H)|].
  split; [apply all_b64_encoded|].
  rewrite len_encoded. unfold Base64.EncodedLen.
  rewrite !len_app. cbn [len]. f_equal. f_equal. lia.
Qed.

Lemma authorization_is_base64_text_witness :
  exists req enc,
    buildHTTPRequestHeader offline "GET" "http://x/transfer/123" EmptyString
      ("user" +:+ LF) ("pass" +:+ LF) = Ok req
    /\ Header_Get (ReqHeader req) "Authorization" = "Basic " +:+ enc
    /\ all_bytes is_b64 enc = true
    /\ len enc = 16.
Proof.
  eexists.
  match goal with
  | |- exists enc, ?b = Ok ?r /\ _ =>
      assert (Hb : b = Ok r) by (vm_compute; reflexivity);
      destruct (authorization_is_base64_text offline "GET"
                  "http://x/transfer/123" EmptyString
                  ("user" +:+ LF) ("pass" +:+ LF) r Hb) as (enc & H1 & H2 & H3)
  end.
  exists enc. split; [exact Hb|]. split; [exact H1|]. split; [exact H2|].
  rewrite H3. vm_compute. reflexivity.
Defined.

(** X4: two built requests carry the same [Authorization] value exactly
    when their strings [userId:password] are the same. *)
Theorem authorization_same_iff_same_credentials
  (E : Env) (verb1 url1 body1 userId1 password1 : string) (req1 : Request)
  (verb2 url2 body2 userId2 password2 : string) (req2 : Request) :
  buildHTTPRequestHeader E verb1 url1 body1 userId1 password1 = Ok req1 ->
  buildHTTPRequestHeader E verb2 url2 body2 userId2 password2 = Ok req2 ->
  Header_Get (ReqHeader req1) "Authorization"
  = Header_Get (ReqHeader req2) "Authorization"
  <-> userId1 +:+ ":" +:+ password1 = userId2 +:+ ":" +:+ password2.
Proof.
  intros H1 H2.
  rewrite (authorization_value E _ _ _ _ _ _ H1).
  rewrite (authorization_value E _ _ _ _ _ _ H2).
  split.
  - intros H. apply append_inj_l in H. apply encoded_inj, H.
  - intros ->. reflexivity.
Qed.

Lemma authorization_same_iff_same_credentials_witness :
  authorization (buildHTTPRequestHeader offline "GET" "http://x/a" EmptyString
                   "alice" "secret")
  <> authorization (buildHTTPRequestHeader offline "POST" "http://x/b" "{}"
                      "alice" "Secret").
Proof.
  intros H.
  refine (_ (proj1 (authorization_same_iff_same_credentials offline
                      "GET" "http://x/a" EmptyString "alice" "secret" _
                      "POST" "http://x/b" "{}" "alice" "Secret" _
                      eq_refl eq_refl) H)).
  discriminate.
Defined.
(** ** What the submitter and the poller send and close *)

Lemma requests_app t l : requests (t ++ l) = requests t ++ requests l.
Proof.
  induction t as [|e t IH]; [reflexivity|].
  destruct e; cbn [app requests]; rewrite IH; reflexivity.
Qed.

Lemma closes_app t l : closes (t ++ l) = (closes t + closes l)%nat.
Proof.
  induction t as [|e t IH]; [reflexivity|].
  destruct e; cbn [app closes]; rewrite IH; reflexivity.
Qed.

Lemma calls_requests t : calls t = length (requests t).
Proof.
  induction t as [|e t IH]; [reflexivity|].
  destruct e; cbn [calls requests length]; rewrite IH; reflexivity.
Qed.

Lemma printf_only l :
  forallb is_printf l = true ->
  requests l = [] /\ closes l = 0%nat /\ sleeps l = [].
Proof.
  induction l as [|e l IH]; [auto|].
  cbn [forallb]. intros H. apply andb_prop in H as [He Hl].
  destruct e; try discriminate. cbn [requests closes sleeps]. auto.
Qed.

Section Shapes.
Variable E : Env.

Lemma itemsLoop_printf n items i count :
  extends is_printf (itemsLoop E n items i count).
Proof.
  revert i. induction n as [|n IH]; intros i; cbn [itemsLoop].
  - apply extends_ret.
  - repeat extends_step. apply IH.
Qed.

(** The events [postTransferRequest] adds: output, the request between,
    and the closing of the body last when a response came. *)
Lemma postTransferRequest_events json t :
  exists l1 l2,
    forallb is_printf l1 = true /\ forallb is_printf l2 = true
    /\ snd (postTransferRequest E json t)
       = t ++ l1
           ++ match buildHTTPRequestHeader E "POST" mqRestXferUrl json
                      mqWebUserId mqWebPassword with
              | Err _ => []
              | Ok req =>
                  EvDo req
                  :: l2 ++ match client_Do E (calls t) req with
                           | DoResp _ => [EvClose]
                           | DoErr _ => []
                           end
              end.
Proof.
  unfold postTransferRequest.
  destruct (buildHTTPRequestHeader E _ _ _ _ _) as [req|e].
  - exists []. unfold bind at 1. unfold Do at 1. cbv beta iota.
    destruct (client_Do E (calls t) req) as [resp|e].
    + unfold defer_Close.
      match goal with
      | |- exists l2, _ /\ _ /\ snd (let (o, t') := ?m _ in _) = _ =>
          assert (Hq : extends is_printf m) by repeat extends_step
      end.
      destruct (Hq (t ++ [EvDo req])) as (l & Hl & Fl).
      exists l. split; [reflexivity|]. split; [exact Fl|].
      match goal with
      | |- snd (let (o, t') := ?x in _) = _ => destruct x as [o t']
      end.
      cbn [snd] in *. subst t'. cbn [app]. rewrite <- !app_assoc. reflexivity.
    + run_M. cbn [snd].
      match goal with
      | |- exists l2, _ /\ _ /\ _ ++ ?l = _ => exists l
      end.
      split; [reflexivity|]. split; [reflexivity|].
      rewrite app_nil_r, <- app_assoc. reflexivity.
  - run_M. cbn [snd].
    match goal with
    | |- exists l1 l2, _ /\ _ /\ _ ++ ?l = _ => exists l, []
    end.
    split; [reflexivity|]. split; [reflexivity|].
    rewrite app_nil_r. reflexivity.
Qed.

(** The events [waitForTransferStatus] adds, in the same way. *)
Lemma waitForTransferStatus_events transferUrl t :
  exists l1 l2,
    forallb is_printf l1 = true /\ forallb is_printf l2 = true
    /\ snd (waitForTransferStatus E transferUrl t)
       = t ++ l1
           ++ match buildHTTPRequestHeader E "GET"
                      (transferUrl +:+ "?attributes=*") EmptyString
                      mqWebUserId mqWebPassword with
              | Err _ => []
              | Ok req =>
                  EvDo req
                  :: l2 ++ match client_Do E (calls t) req with
                           | DoResp _ => [EvClose]
                           | DoErr _ => []
                           end
              end.
Proof.
  unfold waitForTransferStatus. unfold bind at 1. unfold Printf at 1.
  unfold emit at 1. cbv beta iota.
  destruct (buildHTTPRequestHeader E _ _ _ _ _) as [req|e].
  - exists [pollMark]. unfold bind at 1. unfold Do at 1. cbv beta iota.
    rewrite calls_app, Nat.add_0_r.
    destruct (client_Do E (calls t) req) as [resp|e].
    + unfold defer_Close.
      match goal with
      | |- exists l2, _ /\ _ /\ snd (let (o, t') := ?m _ in _) = _ =>
          assert (Hq : extends is_printf m)
            by (repeat extends_step; apply itemsLoop_printf)
      end.
      destruct (Hq ((t ++ [EvPrintf ("Querying status of transfer" +:+ LF) []])
                      ++ [EvDo req])) as (l & Hl & Fl).
      exists l. split; [reflexivity|]. split; [exact Fl|].
      match goal with
      | |- snd (let (o, t') := ?x in _) = _ => destruct x as [o t']
      end.
      cbn [snd] in *. subst t'. unfold pollMark.
      rewrite <- !app_assoc. reflexivity.
    + run_M. cbn [snd].
      match goal with
      | |- exists l2, _ /\ _ /\ _ ++ ?l = _ => exists l
      end.
      split; [reflexivity|]. split; [reflexivity|].
      unfold pollMark. rewrite app_nil_r, <- !app_assoc. reflexivity.
  - run_M. cbn [snd].
    match goal with
    | |- exists l1 l2, _ /\ _ /\ _ ++ ?l = _ => exists (pollMark :: l), []
    end.
    split; [reflexivity|]. split; [reflexivity|].
    unfold pollMark. rewrite app_nil_r, <- app_assoc. reflexivity.
Qed.

End Shapes.
Section SubmitPollMore.
Variable E : Env.

Lemma postTransferRequest_requests json t :
  requests (snd (postTransferRequest E json t))
  = requests t
      ++ match buildHTTPRequestHeader E "POST" mqRestXferUrl json
                 mqWebUserId mqWebPassword with
         | Ok req => [req]
         | Err _ => []
         end.
Proof.
  destruct (postTransferRequest_events E json t) as (l1 & l2 & F1 & F2 & ->).
  destruct (printf_only l1 F1) as (R1 & _). destruct (printf_only l2 F2) as (R2 & _).
  rewrite !requests_app, R1. cbn [app]. f_equal.
  destruct (buildHTTPRequestHeader E _ _ _ _ _) as [req|e]; [|reflexivity].
  cbn [requests]. rewrite requests_app, R2.
  destruct (client_Do E (calls t) req); reflexivity.
Qed.

Lemma waitForTransferStatus_requests transferUrl t :
  requests (snd (waitForTransferStatus E transferUrl t))
  = requests t
      ++ match buildHTTPRequestHeader E "GET" (transferUrl +:+ "?attributes=*")
                 EmptyString mqWebUserId mqWebPassword with
         | Ok req => [req]
         | Err _ => []
         end.
Proof.
  destruct (waitForTransferStatus_events E transferUrl t)
    as (l1 & l2 & F1 & F2 & ->).
  destruct (printf_only l1 F1) as (R1 & _). destruct (printf_only l2 F2) as (R2 & _).
  rewrite !requests_app, R1. cbn [app]. f_equal.
  destruct (buildHTTPRequestHeader E _ _ _ _ _) as [req|e]; [|reflexivity].
  cbn [requests]. rewrite requests_app, R2.
  destruct (client_Do E (calls t) req); reflexivity.
Qed.

Lemma postTransferRequest_closes json t :
  closes (snd (postTransferRequest E json t))
  = (closes t
     + match buildHTTPRequestHeader E "POST" mqRestXferUrl json
               mqWebUserId mqWebPassword with
       | Ok req =>
           match client_Do E (calls t) req with
           | DoResp _ => 1
           | DoErr _ => 0
           end
       | Err _ => 0
       end)%nat.
Proof.
  destruct (postTransferRequest_events E json t) as (l1 & l2 & F1 & F2 & ->).
  destruct (printf_only l1 F1) as (_ & C1 & _).
  destruct (printf_only l2 F2) as (_ & C2 & _).
  rewrite !closes_app, C1.
  destruct (buildHTTPRequestHeader E _ _ _ _ _) as [req|e]; [|reflexivity].
  cbn [closes]. rewrite closes_app, C2.
  destruct (client_Do E (calls t) req); reflexivity.
Qed.

Lemma waitForTransferStatus_closes transferUrl t :
  closes (snd (waitForTransferStatus E transferUrl t))
  = (closes t
     + match buildHTTPRequestHeader E "GET" (transferUrl +:+ "?attributes=*")
               EmptyString mqWebUserId mqWebPassword with
       | Ok req =>
           match client_Do E (calls t) req with
           | DoResp _ => 1
           | DoErr _ => 0
           end
       | Err _ => 0
       end)%nat.
Proof.
  destruct (waitForTransferStatus_events E transferUrl t)
    as (l1 & l2 & F1 & F2 & ->).
  destruct (printf_only l1 F1) as (_ & C1 & _).
  destruct (printf_only l2 F2) as (_ & C2 & _).
  rewrite !closes_app, C1.
  destruct (buildHTTPRequestHeader E _ _ _ _ _) as [req|e]; [|reflexivity].
  cbn [closes]. rewrite closes_app, C2.
  destruct (client_Do E (calls t) req); reflexivity.
Qed.

Lemma closed_last t l2 req (r : DoResult) l1 :
  (exists resp, r = DoResp resp) ->
  last (t ++ l1 ++ EvDo req :: l2
          ++ match r with DoResp _ => [EvClose] | DoErr _ => [] end)
  = Some EvClose.
Proof.
  intros [resp ->].
  replace (t ++ l1 ++ EvDo req :: l2 ++ [EvClose])
    with ((t ++ l1 ++ EvDo req :: l2) ++ [EvClose])
    by (rewrite <- !app_assoc; reflexivity).
  apply last_snoc.
Qed.

(** When the poller panics, a 200 response with a readable body and no
    first transfer has arrived. *)
Lemma waitForTransferStatus_panic_inv transferUrl t msg :
  fst (waitForTransferStatus E transferUrl t) = Panic msg ->
  exists httpGET respGET,
    buildHTTPRequestHeader E "GET" (transferUrl +:+ "?attributes=*") EmptyString
      mqWebUserId mqWebPassword = Ok httpGET
    /\ client_Do E (calls t) httpGET = DoResp respGET
    /\ no_transfer E respGET.
Proof.
  intros Hp.
  destruct (buildHTTPRequestHeader E "GET" (transferUrl +:+ "?attributes=*")
              EmptyString mqWebUserId mqWebPassword) as [req|e] eqn:Hb.
  2:{ rewrite waitForTransferStatus_sentinel in Hp by eauto. discriminate. }
  destruct (client_Do E (calls t) req) as [resp|e] eqn:Hd.
  2:{ rewrite waitForTransferStatus_sentinel in Hp by eauto 6. discriminate. }
  exists req, resp. split; [reflexivity|]. split; [exact Hd|].
  destruct (Z.eq_dec (StatusCode resp) 200) as [Hc|Hc].
  2:{ rewrite (waitForTransferStatus_returns_status E _ _ _ _ Hb Hd) in Hp
        by auto. discriminate. }
  destruct (Body resp) as [body|e] eqn:Hr.
  2:{ rewrite (waitForTransferStatus_returns_status E _ _ _ _ Hb Hd) in Hp
        by eauto. discriminate. }
  destruct (GjsonOps.Result_Array E (GjsonOps.Get E body "transfer"))
    as [|first rest] eqn:Ha.
  - split; [exact Hc|]. exists body. auto.
  - rewrite (waitForTransferStatus_returns_status E _ _ _ _ Hb Hd) in Hp
      by (right; right; eauto 6). discriminate.
Qed.

End SubmitPollMore.

(** X5: [postTransferRequest] hands the server exactly one request when
    one could be built, a POST to the configured URL whose body is the
    transfer request text, and none otherwise. *)
Theorem postTransferRequest_sends_one_POST
  (E : Env) (xferRequestJson : string) (t : list event) :
  let sent := requests (snd (postTransferRequest E xferRequestJson t)) in
  (forall httpPOST,
      buildHTTPRequestHeader E "POST" mqRestXferUrl xferRequestJson
        mqWebUserId mqWebPassword = Ok httpPOST ->
      sent = requests t ++ [httpPOST]
      /\ Method httpPOST = "POST"
      /\ URL httpPOST = mqRestXferUrl
      /\ ReqBody httpPOST = xferRequestJson)
  /\ (forall errPOST,
         buildHTTPRequestHeader E "POST" mqRestXferUrl xferRequestJson
           mqWebUserId mqWebPassword = Err errPOST ->
         sent = requests t).
Proof.
  intros sent. subst sent. rewrite postTransferRequest_requests. split.
  - intros req Hb. rewrite Hb. split; [reflexivity|].
    apply buildHTTPRequestHeader_Ok in Hb. subst req. auto.
  - intros e ->. apply app_nil_r.
Qed.

Lemma postTransferRequest_sends_one_POST_witness :
  exists httpPOST,
    requests (snd (postTransferRequest offline buildTransferJsonRequest []))
    = [httpPOST]
    /\ ReqBody httpPOST = buildTransferJsonRequest.
Proof.
  eexists.
  match goal with
  | |- _ = [?r] /\ _ =>
      destruct (proj1 (postTransferRequest_sends_one_POST offline
                         buildTransferJsonRequest []) r)
        as (Hs & _ & _ & Hbody); [vm_compute; reflexivity|]
  end.
  split; [exact Hs|exact Hbody].
Defined.

(** X6: [waitForTransferStatus] hands the server exactly one request when
    one could be built, a GET without body to the transfer URL followed by
    [?attributes=*], and none otherwise. *)
Theorem waitForTransferStatus_sends_one_GET
  (E : Env) (transferUrl : string) (t : list event) :
  let sent := requests (snd (waitForTransferStatus E transferUrl t)) in
  (forall httpGET,
      buildHTTPRequestHeader E "GET" (transferUrl +:+ "?attributes=*")
        EmptyString mqWebUserId mqWebPassword = Ok httpGET ->
      sent = requests t ++ [httpGET]
      /\ Method httpGET = "GET"
      /\ URL httpGET = transferUrl +:+ "?attributes=*"
      /\ ReqBody httpGET = EmptyString)
  /\ (forall errGET,
         buildHTTPRequestHeader E "GET" (transferUrl +:+ "?attributes=*")
           EmptyString mqWebUserId mqWebPassword = Err errGET ->
         sent = requests t).
Proof.
  intros sent. subst sent. rewrite waitForTransferStatus_requests. split.
  - intros req Hb. rewrite Hb. split; [reflexivity|].
    apply buildHTTPRequestHeader_Ok in Hb. subst req. auto.
  - intros e ->. apply app_nil_r.
Qed.

Lemma waitForTransferStatus_sends_one_GET_witness :
  exists httpGET,
    requests (snd (waitForTransferStatus offline "http://x/transfer/123" []))
    = [httpGET]
    /\ URL httpGET = "http://x/transfer/123?attributes=*".
Proof.
  eexists.
  match goal with
  | |- _ = [?r] /\ _ =>
      destruct (proj1 (waitForTransferStatus_sends_one_GET offline
                         "http://x/transfer/123" []) r)
        as (Hs & _ & Hu & _); [vm_compute; reflexivity|]
  end.
  split; [exact Hs|exact Hu].
Defined.

(** X7: [postTransferRequest] closes the body of the response once, as its
    last action, when a response came, and closes nothing when none came. *)
Theorem postTransferRequest_closes_body
  (E : Env) (xferRequestJson : string) (t : list event) (httpPOST : Request) :
  buildHTTPRequestHeader E "POST" mqRestXferUrl xferRequestJson
    mqWebUserId mqWebPassword = Ok httpPOST ->
  let after := snd (postTransferRequest E xferRequestJson t) in
  (forall respPost,
      client_Do E (calls t) httpPOST = DoResp respPost ->
      closes after = S (closes t) /\ last after = Some EvClose)
  /\ (forall errPost,
         client_Do E (calls t) httpPOST = DoErr errPost ->
         closes after = closes t).
Proof.
  intros Hb after. subst after. split.
  - intros resp Hd. split.
    + rewrite postTransferRequest_closes, Hb, Hd. lia.
    + destruct (postTransferRequest_events E xferRequestJson t)
        as (l1 & l2 & _ & _ & ->).
      rewrite Hb. apply closed_last. eauto.
  - intros e Hd. rewrite postTransferRequest_closes, Hb, Hd. lia.
Qed.

Lemma postTransferRequest_closes_body_witness :
  closes (snd (postTransferRequest (accepting notFound)
                 buildTransferJsonRequest [])) = 1%nat.
Proof.
  edestruct (postTransferRequest_closes_body (accepting notFound)
               buildTransferJsonRequest []) as [Hc _];
    [vm_compute; reflexivity|].
  exact (proj1 (Hc accepted eq_refl)).
Defined.

(** X8: [waitForTransferStatus] closes the body of the response once, as
    its last action, whenever a response came, also when it panics on the
    response; it closes nothing when no response came. *)
Theorem waitForTransferStatus_closes_body
  (E : Env) (transferUrl : string) (t : list event) (httpGET : Request) :
  buildHTTPRequestHeader E "GET" (transferUrl +:+ "?attributes=*") EmptyString
    mqWebUserId mqWebPassword = Ok httpGET ->
  let after := snd (waitForTransferStatus E transferUrl t) in
  (forall respGET,
      client_Do E (calls t) httpGET = DoResp respGET ->
      closes after = S (closes t) /\ last after = Some EvClose)
  /\ (forall errGET,
         client_Do E (calls t) httpGET = DoErr errGET ->
         closes after = closes t).
Proof.
  intros Hb after. subst after. split.
  - intros resp Hd. split.
    + rewrite waitForTransferStatus_closes, Hb, Hd. lia.
    + destruct (waitForTransferStatus_events E transferUrl t)
        as (l1 & l2 & _ & _ & ->).
      rewrite Hb. apply closed_last. eauto.
  - intros e Hd. rewrite waitForTransferStatus_closes, Hb, Hd. lia.
Qed.

Lemma waitForTransferStatus_closes_body_witness :
  fst (waitForTransferStatus
         (scripted (DoResp emptyTransfer) (DoResp emptyTransfer))
         "http://x/transfer/123" [])
  = Panic (IndexOutOfRange 0 0)
  /\ last (snd (waitForTransferStatus
                  (scripted (DoResp emptyTransfer) (DoResp emptyTransfer))
                  "http://x/transfer/123" []))
     = Some EvClose.
Proof.
  split; [vm_compute; reflexivity|].
  edestruct (waitForTransferStatus_closes_body
               (scripted (DoResp emptyTransfer) (DoResp emptyTransfer))
               "http://x/transfer/123" []) as [Hc _];
    [vm_compute; reflexivity|].
  exact (proj2 (Hc emptyTransfer eq_refl)).
Defined.


(** X10: a code [waitForTransferStatus] returns is -1 when no response
    came (no request built, or the transport failed) and the status code
    of the response otherwise. *)
Theorem waitForTransferStatus_returned_code
  (E : Env) (transferUrl : string) (t : list event) (code : Z) :
  fst (waitForTransferStatus E transferUrl t) = Ret code ->
  match buildHTTPRequestHeader E "GET" (transferUrl +:+ "?attributes=*")
          EmptyString mqWebUserId mqWebPassword with
  | Err _ => code = -1
  | Ok httpGET =>
      match client_Do E (calls t) httpGET with
      | DoErr _ => code = -1
      | DoResp respGET => code = StatusCode respGET
      end
  end.
Proof.
  intros Hr.
  destruct (buildHTTPRequestHeader E "GET" (transferUrl +:+ "?attributes=*")
              EmptyString mqWebUserId mqWebPassword) as [req|e] eqn:Hb.
  2:{ rewrite waitForTransferStatus_sentinel in Hr by eauto. congruence. }
  destruct (client_Do E (calls t) req) as [resp|e] eqn:Hd.
  2:{ rewrite waitForTransferStatus_sentinel in Hr by eauto 6. congruence. }
  destruct (Z.eq_dec (StatusCode resp) 200) as [Hc|Hc].
  2:{ rewrite (waitForTransferStatus_returns_status E _ _ _ _ Hb Hd) in Hr
        by auto. congruence. }
  destruct (Body resp) as [body|e] eqn:Hbody.
  2:{ rewrite (waitForTransferStatus_returns_status E _ _ _ _ Hb Hd) in Hr
        by eauto. congruence. }
  destruct (GjsonOps.Result_Array E (GjsonOps.Get E body "transfer"))
    as [|first rest] eqn:Ha.
  - rewrite (waitForTransferStatus_panics E _ _ _ _ _ Hb Hd Hc Hbody Ha) in Hr.
    discriminate.
  - rewrite (waitForTransferStatus_returns_status E _ _ _ _ Hb Hd) in Hr
      by (right; right; eauto 6). congruence.
Qed.

Lemma waitForTransferStatus_returned_code_witness :
  fst (waitForTransferStatus (accepting notFound) "http://x/transfer/123"
         [EvDo {| Method := "POST"; URL := mqRestXferUrl; ReqHeader := ∅;
                  ReqBody := EmptyString |}]) = Ret 404
  /\ 404 = StatusCode notFound.
Proof.
  assert (H : fst (waitForTransferStatus (accepting notFound)
                     "http://x/transfer/123"
                     [EvDo {| Method := "POST"; URL := mqRestXferUrl;
                              ReqHeader := ∅; ReqBody := EmptyString |}])
              = Ret 404)
    by (vm_compute; reflexivity).
  split; [exact H|].
  exact (waitForTransferStatus_returned_code (accepting notFound)
           "http://x/transfer/123" _ 404 H).
Defined.
(** ** The top-level flow, continued *)

Section MainMore.
Variable E : Env.

Lemma main_accepted transferUrl :
  fst (postTransferRequest E buildTransferJsonRequest []) = Ret (202, transferUrl) ->
  main E []
  = match waitForTransferStatus E transferUrl
            (snd (postTransferRequest E buildTransferJsonRequest [])) with
    | (Ret respCode, t2) =>
        if negb (respCode =? 200) then
          match waitForTransferStatus E transferUrl
                  (t2 ++ [EvSleep (5 * Second)]) with
          | (Ret _, t3) => (Ret tt, t3)
          | (Panic msg, t3) => (Panic msg, t3)
          end
        else (Ret tt, t2)
    | (Panic msg, t2) => (Panic msg, t2)
    end.
Proof.
  intros Hp. rewrite main_cases.
  destruct (postTransferRequest E buildTransferJsonRequest []) as [o t1].
  cbn [fst snd] in *. subst o. reflexivity.
Qed.

(** After a 202 the flow is one poll, or two polls with one sleep of five
    seconds between them; each poll sends the same request, if any. *)
Lemma main_accepted_shape transferUrl :
  fst (postTransferRequest E buildTransferJsonRequest []) = Ret (202, transferUrl) ->
  let t1 := snd (postTransferRequest E buildTransferJsonRequest []) in
  let sent :=
    match buildHTTPRequestHeader E "GET" (transferUrl +:+ "?attributes=*")
            EmptyString mqWebUserId mqWebPassword with
    | Ok req => [req]
    | Err _ => []
    end in
  let final := snd (main E []) in
  (polls final = 1%nat /\ sleeps final = []
   /\ requests final = requests t1 ++ sent)
  \/ (polls final = 2%nat /\ sleeps final = [5000000000]
      /\ requests final = requests t1 ++ sent ++ sent).
Proof.
  intros Hp t1 sent final.
  pose proof (postTransferRequest_polls E buildTransferJsonRequest []) as [Pp Ps].
  fold t1 in Pp, Ps. cbn [polls sleeps] in Pp, Ps.
  assert (Hfinal : final = snd (main E [])) by reflexivity.
  rewrite (main_accepted _ Hp) in Hfinal. fold t1 in Hfinal.
  pose proof (waitForTransferStatus_polls E transferUrl t1) as [Wp Ws].
  pose proof (waitForTransferStatus_requests E transferUrl t1) as Wr.
  fold sent in Wr.
  destruct (waitForTransferStatus E transferUrl t1) as [[c|m] t2];
    cbn [fst snd] in *.
  - destruct (negb (c =? 200)).
    + pose proof (waitForTransferStatus_polls E transferUrl
                    (t2 ++ [EvSleep (5 * Second)])) as [Wp2 Ws2].
      pose proof (waitForTransferStatus_requests E transferUrl
                    (t2 ++ [EvSleep (5 * Second)])) as Wr2.
      fold sent in Wr2.
      assert (Hf2 : final = snd (waitForTransferStatus E transferUrl
                                   (t2 ++ [EvSleep (5 * Second)]))).
      { rewrite Hfinal.
        destruct (waitForTransferStatus E transferUrl
                    (t2 ++ [EvSleep (5 * Second)])) as [[c'|m] t3]; reflexivity. }
      rewrite <- Hf2 in Wp2, Ws2, Wr2.
      rewrite polls_app in Wp2. rewrite sleeps_app in Ws2.
      rewrite requests_app in Wr2.
      cbn [polls sleeps requests is_poll] in Wp2, Ws2, Wr2.
      right. rewrite Wp2, Ws2, Wr2, Wp, Ws, Wr, Pp, Ps.
      rewrite app_nil_r, <- app_assoc. auto.
    + cbn [snd] in Hfinal. left. rewrite Hfinal, Wp, Ws, Wr, Pp, Ps. auto.
  - cbn [snd] in Hfinal. left. rewrite Hfinal, Wp, Ws, Wr, Pp, Ps. auto.
Qed.

Lemma built_app_post json t :
  Forall (built E) (requests t) ->
  Forall (built E) (requests (snd (postTransferRequest E json t))).
Proof.
  intros H. rewrite postTransferRequest_requests. apply Forall_app. split; [exact H|].
  destruct (buildHTTPRequestHeader E _ _ _ _ _) as [req|e] eqn:Hb;
    [|constructor].
  repeat constructor. unfold built. eauto.
Qed.

Lemma built_app_wait transferUrl t :
  Forall (built E) (requests t) ->
  Forall (built E) (requests (snd (waitForTransferStatus E transferUrl t))).
Proof.
  intros H. rewrite waitForTransferStatus_requests. apply Forall_app.
  split; [exact H|].
  destruct (buildHTTPRequestHeader E _ _ _ _ _) as [req|e] eqn:Hb;
    [|constructor].
  repeat constructor. unfold built. eauto.
Qed.

Lemma main_requests_built : Forall (built E) (requests (snd (main E []))).
Proof.
  rewrite main_cases.
  pose proof (built_app_post buildTransferJsonRequest [] (List.Forall_nil _)) as H1.
  destruct (postTransferRequest E buildTransferJsonRequest [])
    as [[posted|m] t1]; cbn [snd] in *; [|exact H1].
  destruct (fst posted =? 202); [|exact H1].
  pose proof (built_app_wait (snd posted) t1 H1) as H2.
  destruct (waitForTransferStatus E (snd posted) t1) as [[c|m] t2];
    cbn [snd] in *; [|exact H2].
  destruct (negb (c =? 200)); [|exact H2].
  assert (H3 : Forall (built E) (requests (t2 ++ [EvSleep (5 * Second)])))
    by (rewrite requests_app; cbn [requests]; rewrite app_nil_r; exact H2).
  pose proof (built_app_wait (snd posted) _ H3) as H4.
  destruct (waitForTransferStatus E (snd posted) (t2 ++ [EvSleep (5 * Second)]))
    as [[c'|m] t3]; exact H4.
Qed.

(** Each call adds at most one request. *)
Lemma main_calls_polls :
  (calls (snd (main E [])) <= S (polls (snd (main E []))))%nat
  /\ (polls (snd (main E [])) <= 2)%nat.
Proof.
  rewrite main_cases.
  pose proof (postTransferRequest_polls E buildTransferJsonRequest []) as [Pp _].
  pose proof (postTransferRequest_requests E buildTransferJsonRequest []) as Pr.
  apply (f_equal (@length _)) in Pr. rewrite length_app in Pr.
  cbn [polls requests length] in Pp, Pr.
  assert (Pc : (calls (snd (postTransferRequest E buildTransferJsonRequest []))
                <= 1)%nat).
  { rewrite calls_requests, Pr.
    destruct (buildHTTPRequestHeader E _ _ _ _ _); cbn [length]; lia. }
  clear Pr.
  destruct (postTransferRequest E buildTransferJsonRequest [])
    as [[posted|m] t1]; cbn [snd] in *; [|lia].
  destruct (fst posted =? 202); cbn [snd]; [|lia].
  pose proof (waitForTransferStatus_polls E (snd posted) t1) as [Wp _].
  pose proof (waitForTransferStatus_requests E (snd posted) t1) as Wr.
  apply (f_equal (@length _)) in Wr. rewrite length_app, <- !calls_requests in Wr.
  assert (Hg : (length
                  match buildHTTPRequestHeader E "GET"
                          (snd posted +:+ "?attributes=*") EmptyString
                          mqWebUserId mqWebPassword with
                  | Ok req => [req]
                  | Err _ => []
                  end <= 1)%nat)
    by (destruct (buildHTTPRequestHeader E _ _ _ _ _); cbn [length]; lia).
  destruct (waitForTransferStatus E (snd posted) t1) as [[c|m] t2];
    cbn [snd] in *; [|lia].
  destruct (negb (c =? 200)); cbn [snd]; [|lia].
  pose proof (waitForTransferStatus_polls E (snd posted)
                (t2 ++ [EvSleep (5 * Second)])) as [Wp2 _].
  pose proof (waitForTransferStatus_requests E (snd posted)
                (t2 ++ [EvSleep (5 * Second)])) as Wr2.
  apply (f_equal (@length _)) in Wr2.
  rewrite length_app, <- !calls_requests, calls_app in Wr2.
  rewrite polls_app in Wp2. cbn [polls calls is_poll] in Wp2, Wr2.
  destruct (waitForTransferStatus E (snd posted) (t2 ++ [EvSleep (5 * Second)]))
    as [[c'|m] t3]; cbn [snd] in *; lia.
Qed.

(** The poller does not panic on a response that holds a first transfer,
    or is not a readable 200. *)
Lemma waitForTransferStatus_safe transferUrl t :
  (forall n req resp, client_Do E n req = DoResp resp -> ~ no_transfer E resp) ->
  exists code, fst (waitForTransferStatus E transferUrl t) = Ret code.
Proof.
  intros H.
  destruct (fst (waitForTransferStatus E transferUrl t)) as [c|m] eqn:Hw;
    [eauto|].
  destruct (waitForTransferStatus_panic_inv E _ _ _ Hw)
    as (req & resp & _ & Hd & Hn).
  destruct (H _ _ _ Hd Hn).
Qed.

End MainMore.
(** X11: a handle [postTransferRequest] returns is empty unless the code
    returned with it is 202, and the code is 202 only when a response
    with status code 202 and a readable body came, the handle being the
    value of its [location] header. *)
Theorem handle_only_when_accepted
  (E : Env) (xferRequestJson : string) (t : list event)
  (retCode : Z) (transferStatusUrl : string) :
  fst (postTransferRequest E xferRequestJson t)
  = Ret (retCode, transferStatusUrl) ->
  (transferStatusUrl <> EmptyString -> retCode = 202)
  /\ (retCode = 202 ->
      exists httpPOST respPost data,
        buildHTTPRequestHeader E "POST" mqRestXferUrl xferRequestJson
          mqWebUserId mqWebPassword = Ok httpPOST
        /\ client_Do E (calls t) httpPOST = DoResp respPost
        /\ StatusCode respPost = 202
        /\ Body respPost = ReadOk data
        /\ transferStatusUrl = Header_Get (RespHeader respPost) "location").
Proof.
  destruct (buildHTTPRequestHeader E "POST" mqRestXferUrl xferRequestJson
              mqWebUserId mqWebPassword) as [req|e] eqn:Hb.
  - destruct (client_Do E (calls t) req) as [resp|e] eqn:Hd.
    + rewrite (postTransferRequest_response E _ _ _ _ Hb Hd).
      destruct (Body resp) as [data|e] eqn:Hr.
      * destruct (StatusCode resp =? 202) eqn:Hc; intros [= <- <-].
        -- apply Z.eqb_eq in Hc. split; [auto|]. intros _.
           exists req, resp, data. auto.
        -- apply Z.eqb_neq in Hc. split; [congruence|contradiction].
      * intros [= <- <-]. split; [congruence|discriminate].
    + unfold postTransferRequest. rewrite Hb. run_M. rewrite Hd.
      intros [= <- <-]. split; [congruence|discriminate].
  - unfold postTransferRequest. rewrite Hb. run_M.
    intros [= <- <-]. split; [congruence|discriminate].
Qed.

Lemma handle_only_when_accepted_witness :
  exists respPost,
    client_Do (accepting notFound) 0
      {| Method := "POST"; URL := mqRestXferUrl; ReqHeader := ∅;
         ReqBody := EmptyString |} = DoResp respPost
    /\ StatusCode respPost = 202
    /\ "http://x/transfer/123" = Header_Get (RespHeader respPost) "location".
Proof.
  destruct (handle_only_when_accepted (accepting notFound)
              buildTransferJsonRequest [] 202 "http://x/transfer/123")
    as [_ H]; [vm_compute; reflexivity|].
  destruct (H eq_refl) as (req & resp & data & _ & Hd & Hc & _ & Hh).
  exists resp. split; [exact Hd|]. split; [exact Hc|exact Hh].
Defined.

(** X12: a 202 answer without a [Location] header is taken as accepted
    with an empty handle: the submitter returns [(202, "")] and the flow
    polls all the same, with requests to the URL [?attributes=*]. *)
Theorem accepted_without_location
  (E : Env) (httpPOST : Request) (respPost : Response) (data : string) :
  buildHTTPRequestHeader E "POST" mqRestXferUrl buildTransferJsonRequest
    mqWebUserId mqWebPassword = Ok httpPOST ->
  client_Do E 0 httpPOST = DoResp respPost ->
  StatusCode respPost = 202 ->
  Body respPost = ReadOk data ->
  RespHeader respPost !! "Location" = None ->
  let final := snd (main E []) in
  fst (postTransferRequest E buildTransferJsonRequest []) = Ret (202, EmptyString)
  /\ (1 <= polls final)%nat
  /\ (forall httpGET,
         buildHTTPRequestHeader E "GET" "?attributes=*" EmptyString
           mqWebUserId mqWebPassword = Ok httpGET ->
         URL httpGET = "?attributes=*"
         /\ requests final = httpPOST :: replicate (polls final) httpGET).
Proof.
  intros Hb Hd Hc Hr Hl final.
  assert (Hp : fst (postTransferRequest E buildTransferJsonRequest [])
               = Ret (202, EmptyString)).
  { rewrite (postTransferRequest_response E buildTransferJsonRequest [] _ _ Hb Hd), Hr, Hc.
    change (202 =? 202) with true. cbv iota. unfold Header_Get.
    change (CanonicalMIMEHeaderKey "location") with "Location".
    rewrite Hl. reflexivity. }
  split; [exact Hp|].
  pose proof (postTransferRequest_requests E buildTransferJsonRequest []) as Pr.
  rewrite Hb in Pr. cbn [requests app] in Pr.
  pose proof (main_accepted_shape E EmptyString Hp) as Hs.
  cbv zeta in Hs. rewrite Pr in Hs. fold final in Hs.
  change (EmptyString +:+ "?attributes=*") with "?attributes=*" in Hs.
  split.
  - destruct Hs as [(-> & _)|(-> & _)]; lia.
  - intros g Hg. rewrite Hg in Hs.
    split; [apply buildHTTPRequestHeader_Ok in Hg; subst g; reflexivity|].
    destruct Hs as [(-> & _ & ->)|(-> & _ & ->)]; reflexivity.
Qed.

Lemma accepted_without_location_witness :
  fst (postTransferRequest
         (scripted (DoResp acceptedNowhere) (DoResp notFound))
         buildTransferJsonRequest []) = Ret (202, EmptyString)
  /\ (1 <= polls (snd (main (scripted (DoResp acceptedNowhere)
                               (DoResp notFound)) [])))%nat.
Proof.
  edestruct (accepted_without_location
               (scripted (DoResp acceptedNowhere) (DoResp notFound)))
    as (Hp & Hpolls & _);
    [vm_compute; reflexivity|reflexivity|reflexivity|reflexivity|reflexivity|].
  split; [exact Hp|exact Hpolls].
Defined.

(** X13: every request the program hands to the server carries the basic
    credentials of the configured user, the JSON content type and a blank
    CSRF token. *)
Theorem main_sends_configured_credentials (E : Env) :
  Forall
    (fun req =>
       Header_Get (ReqHeader req) "Authorization"
       = "Basic bXFtZnRhZG1pbnVzcjptcW1mdHBhc3N3MHJk"
       /\ ReqHeader req !! "Content-Type" = Some ["application/json"]
       /\ ReqHeader req !! "Ibm-Mq-Rest-Csrf-Token" = Some [EmptyString])
    (requests (snd (main E []))).
Proof.
  eapply Forall_impl; [apply main_requests_built|].
  intros req (verb & url & body & Hb). cbv beta.
  split.
  - rewrite (authorization_value E _ _ _ _ _ _ Hb).
    vm_compute. reflexivity.
  - apply buildHTTPRequestHeader_Ok in Hb. subst req. cbn [ReqHeader].
    split; [apply lookup_insert_eq|].
    rewrite lookup_insert_ne by discriminate. apply lookup_insert_eq.
Qed.

(** X14: once the transfer is accepted the flow sends the POST and then,
    for each poll, one and the same GET, to the returned handle followed
    by [?attributes=*]; nothing else is sent. *)
Theorem main_requests_when_accepted
  (E : Env) (httpPOST httpGET : Request) (transferUrl : string) :
  buildHTTPRequestHeader E "POST" mqRestXferUrl buildTransferJsonRequest
    mqWebUserId mqWebPassword = Ok httpPOST ->
  fst (postTransferRequest E buildTransferJsonRequest [])
  = Ret (202, transferUrl) ->
  buildHTTPRequestHeader E "GET" (transferUrl +:+ "?attributes=*") EmptyString
    mqWebUserId mqWebPassword = Ok httpGET ->
  let final := snd (main E []) in
  requests final = httpPOST :: replicate (polls final) httpGET
  /\ URL httpGET = transferUrl +:+ "?attributes=*"
  /\ (1 <= polls final <= 2)%nat.
Proof.
  intros Hb Hp Hg final.
  pose proof (postTransferRequest_requests E buildTransferJsonRequest []) as Pr.
  rewrite Hb in Pr. cbn [requests app] in Pr.
  pose proof (main_accepted_shape E transferUrl Hp) as Hs.
  cbv zeta in Hs. rewrite Pr, Hg in Hs. fold final in Hs.
  split; [|split].
  - destruct Hs as [(-> & _ & ->)|(-> & _ & ->)]; reflexivity.
  - apply buildHTTPRequestHeader_Ok in Hg. subst httpGET. reflexivity.
  - destruct Hs as [(-> & _)|(-> & _)]; lia.
Qed.

Lemma main_requests_when_accepted_witness :
  exists httpPOST httpGET,
    requests (snd (main (accepting notFound) []))
    = [httpPOST; httpGET; httpGET]
    /\ URL httpGET = "http://x/transfer/123?attributes=*".
Proof.
  eexists. eexists.
  match goal with
  | |- _ = [?p; ?g; _] /\ _ =>
      destruct (main_requests_when_accepted (accepting notFound) p g
                  "http://x/transfer/123")
        as (Hr & Hu & _);
        [vm_compute; reflexivity|vm_compute; reflexivity
        |vm_compute; reflexivity|]
  end.
  split; [|exact Hu].
  rewrite Hr.
  replace (polls (snd (main (accepting notFound) []))) with 2%nat
    by (vm_compute; reflexivity).
  reflexivity.
Defined.

(** X15: a run of the program makes at most three HTTP calls, never more
    than one for the submission and one for each poll. *)
Theorem main_calls_at_most_three (E : Env) :
  (calls (snd (main E [])) <= 3)%nat
  /\ (calls (snd (main E [])) <= S (polls (snd (main E []))))%nat.
Proof.
  destruct (main_calls_polls E) as [Hc Hp]. split; lia.
Qed.

(** X16: a first poll answered 200 with a body that cannot be read
    returns 200, so the flow neither sleeps nor polls again, and ends
    normally. *)
Theorem main_no_retry_on_unreadable_200
  (E : Env) (transferUrl : string) (httpGET : Request)
  (respGET : Response) (errGET : error) :
  fst (postTransferRequest E buildTransferJsonRequest [])
  = Ret (202, transferUrl) ->
  buildHTTPRequestHeader E "GET" (transferUrl +:+ "?attributes=*") EmptyString
    mqWebUserId mqWebPassword = Ok httpGET ->
  client_Do E (calls (snd (postTransferRequest E buildTransferJsonRequest [])))
    httpGET = DoResp respGET ->
  StatusCode respGET = 200 ->
  Body respGET = ReadErr errGET ->
  fst (main E []) = Ret tt
  /\ polls (snd (main E [])) = 1%nat
  /\ sleeps (snd (main E [])) = [].
Proof.
  intros Hp Hg Hd Hc Hr.
  pose proof (waitForTransferStatus_returns_status E transferUrl _ _ _ Hg Hd) as Hw.
  rewrite Hc in Hw. specialize (Hw (or_intror (or_introl (ex_intro _ errGET Hr)))).
  pose proof (postTransferRequest_polls E buildTransferJsonRequest []) as [Pp Ps].
  pose proof (waitForTransferStatus_polls E transferUrl
                (snd (postTransferRequest E buildTransferJsonRequest [])))
    as [Wp Ws].
  rewrite (main_accepted E transferUrl Hp).
  destruct (waitForTransferStatus E transferUrl
              (snd (postTransferRequest E buildTransferJsonRequest [])))
    as [o t2].
  cbn [fst snd] in *. subst o.
  change (negb (200 =? 200)) with false. cbv iota. cbn [fst snd].
  rewrite Wp, Ws, Pp, Ps. auto.
Qed.

Lemma main_no_retry_on_unreadable_200_witness :
  fst (main (accepting unreadableOK) []) = Ret tt
  /\ polls (snd (main (accepting unreadableOK) [])) = 1%nat.
Proof.
  edestruct (main_no_retry_on_unreadable_200 (accepting unreadableOK)
               "http://x/transfer/123")
    as (Hm & Hpolls & _);
    [vm_compute; reflexivity|vm_compute; reflexivity|vm_compute; reflexivity
    |reflexivity|reflexivity|].
  split; [exact Hm|exact Hpolls].
Defined.

(** X17: when no request can be built for the returned handle, the first
    poll returns -1, the flow sleeps five seconds and polls again, which
    fails the same way: two polls, no request sent for either, and the
    program ends normally. *)
Theorem main_retries_unbuildable_poll
  (E : Env) (transferUrl : string) (errGET : error) :
  fst (postTransferRequest E buildTransferJsonRequest [])
  = Ret (202, transferUrl) ->
  buildHTTPRequestHeader E "GET" (transferUrl +:+ "?attributes=*") EmptyString
    mqWebUserId mqWebPassword = Err errGET ->
  fst (main E []) = Ret tt
  /\ polls (snd (main E [])) = 2%nat
  /\ sleeps (snd (main E [])) = [5000000000]
  /\ requests (snd (main E []))
     = requests (snd (postTransferRequest E buildTransferJsonRequest [])).
Proof.
  intros Hp Hg.
  assert (Hw : forall t, fst (waitForTransferStatus E transferUrl t) = Ret (-1))
    by (intros t; apply waitForTransferStatus_sentinel; eauto).
  pose proof (main_accepted_shape E transferUrl Hp) as Hs.
  cbv zeta in Hs. rewrite Hg, !app_nil_r in Hs.
  assert (Hm : fst (main E []) = Ret tt
               /\ sleeps (snd (main E [])) <> []).
  { rewrite (main_accepted E transferUrl Hp).
    pose proof (Hw (snd (postTransferRequest E buildTransferJsonRequest []))) as H1.
    destruct (waitForTransferStatus E transferUrl
                (snd (postTransferRequest E buildTransferJsonRequest [])))
      as [o t2].
    cbn [fst] in H1. subst o. change (negb (-1 =? 200)) with true. cbv iota.
    pose proof (Hw (t2 ++ [EvSleep (5 * Second)])) as H2.
    pose proof (waitForTransferStatus_polls E transferUrl
                  (t2 ++ [EvSleep (5 * Second)])) as [_ Ws].
    destruct (waitForTransferStatus E transferUrl (t2 ++ [EvSleep (5 * Second)]))
      as [o t3].
    cbn [fst snd] in *. subst o. cbv iota. cbn [fst snd].
    split; [reflexivity|].
    rewrite Ws, sleeps_app. cbn [sleeps]. intros Habs.
    apply app_eq_nil in Habs as [_ Habs]. discriminate. }
  destruct Hm as [Hm Hne]. split; [exact Hm|].
  destruct Hs as [(_ & Hs & _)|(Hpolls & Hs & Hr)]; [contradiction|].
  auto.
Qed.

Lemma main_retries_unbuildable_poll_witness :
  polls (snd (main badHandle [])) = 2%nat
  /\ length (requests (snd (main badHandle []))) = 1%nat.
Proof.
  edestruct (main_retries_unbuildable_poll badHandle "http://x/transfer/123")
    as (_ & Hpolls & _ & Hr);
    [vm_compute; reflexivity|vm_compute; reflexivity|].
  split; [exact Hpolls|]. rewrite Hr. vm_compute. reflexivity.
Defined.

(** X18: the program ends normally, without panic, whenever no answer of
    the server is a 200 with a readable body in which [transfer] has no
    first element. *)
Theorem main_completes_normally (E : Env) :
  (forall n req resp, client_Do E n req = DoResp resp -> ~ no_transfer E resp) ->
  fst (main E []) = Ret tt.
Proof.
  intros H. rewrite main_cases.
  destruct (postTransferRequest_returns E buildTransferJsonRequest [])
    as [posted Hp].
  destruct (postTransferRequest E buildTransferJsonRequest []) as [o t1].
  cbn [fst] in Hp. subst o.
  destruct (fst posted =? 202); [|reflexivity].
  destruct (waitForTransferStatus_safe E (snd posted) t1 H) as [c Hw].
  destruct (waitForTransferStatus E (snd posted) t1) as [o t2].
  cbn [fst] in Hw. subst o.
  destruct (negb (c =? 200)); [|reflexivity].
  destruct (waitForTransferStatus_safe E (snd posted)
              (t2 ++ [EvSleep (5 * Second)]) H) as [c' Hw'].
  destruct (waitForTransferStatus E (snd posted) (t2 ++ [EvSleep (5 * Second)]))
    as [o t3].
  cbn [fst] in Hw'. subst o. reflexivity.
Qed.

Lemma main_completes_normally_witness :
  fst (main (accepting oneItemFailed) []) = Ret tt.
Proof.
  apply main_completes_normally.
  intros n req resp Hd (Hc & body & Hr & Ha).
  destruct n as [|n]; cbn in Hd; injection Hd as <-.
  - discriminate Hc.
  - injection Hr as <-. vm_compute in Ha. discriminate Ha.
Defined.
